(** * StateWithRedux: the Redux state container of [src/app/index.jsx]

    The store of the application is built from three slices ([uiSlice],
    [counterSlice], [todosSlice]) that are combined by [configureStore].
    Each slice is embedded as a module holding its state record, its
    initial state, its case reducers (one function per entry of the
    [reducers] object) and the slice reducer that selects a case reducer
    from the dispatched action.

    Conventions of the embedding:
    - a case reducer is written in the source as a mutation of an Immer
      draft; here it is the function from the current state (and payload)
      to the next state;
    - the counter value and the [addByAmount] payload are JavaScript
      numbers, that is IEEE 754 binary64 values ([JsNumber.t]); the
      timestamps are only stored and compared and are integers ([Z]);
    - arrays are lists, [Array.prototype.find] is [list_find] (first match,
      with its index), [filter] is [filter], [unshift] is [cons] and
      [push] appends at the end;
    - [nanoid()] and [Date.now()] are calls into the environment: their
      results are arguments of the [prepare] callback. *)

From Stdlib Require QArith.
From Stdlib Require SpecFloat.
From stdpp Require Import base numbers list strings sorting.

Open Scope Z_scope.

(** ** JavaScript numbers

    A JavaScript number is an IEEE 754 binary64 value.  Every finite value
    of that format is a whole multiple of 2^-1074, its smallest positive
    value: [Fin k] stands for the number k * 2^-1074, [Fin 0] for +0 and
    [NegZero] for -0.  The sum of two finite values is then the sum of
    two integers, rounded to the format. *)

Module JsNumber.

Inductive t := NaN | PosInfinity | NegInfinity | NegZero | Fin (k : Z).

(** The number 1 counted in units of 2^-1074. *)
Definition scale : Z := 2 ^ 1074.

(** The number whose value is the integer [z]; a value of the format when
    [z] is one (every integer up to 2^53 in magnitude is). *)
Definition integer (z : Z) : t := Fin (z * scale).

(** [k] units are a value of the format: at most 53 significant bits, and
    below 2^1024 in magnitude. *)
Definition representable (k : Z) : Prop :=
  (2 ^ Z.max (Z.log2 (Z.abs k) - 52) 0 | Z.abs k) ∧ Z.abs k < 2 ^ 2098.

(** Rounding of [k] units to the format, to the nearest value and on a
    tie to the one with the even significand.  [s] is the number of low
    bits that do not fit in 53 bits; a result of 2^1024 or more in
    magnitude is an infinity. *)
Definition round (k : Z) : t :=
  if k =? 0 then Fin 0 else
  let a := Z.abs k in
  let s := Z.max (Z.log2 a - 52) 0 in
  let q := a / 2 ^ s in
  let r := a mod 2 ^ s in
  let m := if 2 * r <? 2 ^ s then q
           else if 2 ^ s <? 2 * r then q + 1
           else if Z.even q then q else q + 1 in
  let a' := m * 2 ^ s in
  if 2 ^ 2098 <=? a' then (if k <? 0 then NegInfinity else PosInfinity)
  else Fin (Z.sgn k * a').

(* x + y *)
Definition add (x y : t) : t :=
  match x, y with
  | NaN, _ | _, NaN => NaN
  | PosInfinity, NegInfinity | NegInfinity, PosInfinity => NaN
  | PosInfinity, _ | _, PosInfinity => PosInfinity
  | NegInfinity, _ | _, NegInfinity => NegInfinity
  | NegZero, NegZero => NegZero
  | NegZero, Fin k | Fin k, NegZero => Fin k
  | Fin a, Fin b => round (a + b)
  end.

(* -x *)
Definition neg (x : t) : t :=
  match x with
  | NaN => NaN
  | PosInfinity => NegInfinity
  | NegInfinity => PosInfinity
  | NegZero => Fin 0
  | Fin k => if k =? 0 then NegZero else Fin (- k)
  end.

(* x - y *)
Definition sub (x y : t) : t := add x (neg y).

(** The number literal of an integer: the integer rounded to the format. *)
Definition of_Z (z : Z) : t := round (z * scale).

(** ToBoolean of a number: NaN and the two zeros are falsy. *)
Definition truthy (x : t) : bool :=
  match x with
  | NaN | NegZero => false
  | PosInfinity | NegInfinity => true
  | Fin k => negb (k =? 0)
  end.

(** The integers that every addition below keeps exact. *)
Definition safe (z : Z) : Prop := - 2 ^ 53 ≤ z ≤ 2 ^ 53.

Definition safeb (z : Z) : bool := (- 2 ^ 53 <=? z) && (z <=? 2 ^ 53).

(** The same numbers in the representation of the binary64 specification
    of the standard library, to compare [add] with its addition. *)
Definition of_spec (f : SpecFloat.spec_float) : t :=
  match f with
  | SpecFloat.S754_nan => NaN
  | SpecFloat.S754_infinity s => if s then NegInfinity else PosInfinity
  | SpecFloat.S754_zero s => if s then NegZero else Fin 0
  | SpecFloat.S754_finite s m e =>
      Fin ((if s then -1 else 1) * Z.pos m * 2 ^ (e + 1074))
  end.

End JsNumber.

(** ** UI slice: theme + banners *)

Module uiSlice.

Record State := mkState { darkMode : bool; showBanner : bool }.

Definition initialState : State :=
  {| darkMode := false; showBanner := true |}.

Inductive Action := A_toggleDarkMode | A_dismissBanner.

Module reducers.
(* state.darkMode = !state.darkMode *)
Definition toggleDarkMode (state : State) : State :=
  {| darkMode := negb (darkMode state); showBanner := showBanner state |}.

(* state.showBanner = false *)
Definition dismissBanner (state : State) : State :=
  {| darkMode := darkMode state; showBanner := false |}.
End reducers.

Definition reducer (state : State) (action : Action) : State :=
  match action with
  | A_toggleDarkMode => reducers.toggleDarkMode state
  | A_dismissBanner => reducers.dismissBanner state
  end.

(** Dispatching a sequence of UI actions, first to last. *)
Definition run (actions : list Action) (state : State) : State :=
  foldl reducer state actions.

(** How many [toggleDarkMode] actions a sequence holds, and whether it
    holds a [dismissBanner]. *)
Fixpoint count_toggles (actions : list Action) : nat :=
  match actions with
  | [] => 0%nat
  | A_toggleDarkMode :: rest => S (count_toggles rest)
  | A_dismissBanner :: rest => count_toggles rest
  end.

Fixpoint has_dismiss (actions : list Action) : bool :=
  match actions with
  | [] => false
  | A_dismissBanner :: _ => true
  | A_toggleDarkMode :: rest => has_dismiss rest
  end.

End uiSlice.

(** ** Counter slice *)

Module counterSlice.

Record State := mkState { value : JsNumber.t }.

Definition initialState : State := {| value := JsNumber.Fin 0 |}.

Inductive Action :=
| A_increment
| A_decrement
| A_reset
| A_addByAmount (payload : JsNumber.t).

Module reducers.
(* state.value += 1 *)
Definition increment (state : State) : State :=
  {| value := JsNumber.add (value state) (JsNumber.of_Z 1) |}.

(* state.value -= 1 *)
Definition decrement (state : State) : State :=
  {| value := JsNumber.sub (value state) (JsNumber.of_Z 1) |}.

(* state.value = 0 *)
Definition reset (state : State) : State :=
  {| value := JsNumber.Fin 0 |}.

(* state.value += action.payload *)
Definition addByAmount (state : State) (payload : JsNumber.t) : State :=
  {| value := JsNumber.add (value state) payload |}.
End reducers.

Definition reducer (state : State) (action : Action) : State :=
  match action with
  | A_increment => reducers.increment state
  | A_decrement => reducers.decrement state
  | A_reset => reducers.reset state
  | A_addByAmount n => reducers.addByAmount state n
  end.

(** Dispatching a sequence of counter actions, first to last. *)
Definition run (actions : list Action) (state : State) : State :=
  foldl reducer state actions.

(** The transitions of the specification, whose amounts are integers, and
    the actions that carry them out. *)
Inductive Transition :=
| T_increment
| T_decrement
| T_reset
| T_addByAmount (N : Z).

Definition action_of (t : Transition) : Action :=
  match t with
  | T_increment => A_increment
  | T_decrement => A_decrement
  | T_reset => A_reset
  | T_addByAmount N => A_addByAmount (JsNumber.of_Z N)
  end.

(** The reading of the specification: every transition has a delta, and
    the value is the sum of the deltas of the transitions that follow the
    most recent [reset] (all of them, on top of the starting value, when
    no [reset] occurred). *)
Definition delta (t : Transition) : Z :=
  match t with
  | T_increment => 1
  | T_decrement => -1
  | T_reset => 0
  | T_addByAmount n => n
  end.







End counterSlice.

(** ** Todo slice *)

Module todosSlice.

Record Todo := mkTodo {
  id : string;
  title : string;
  done : bool;
  createdAt : Z;
}.

Record State := mkState {
  items : list Todo;
  doneItems : list Todo;
}.

Definition initialState : State := {| items := []; doneItems := [] |}.

Inductive Action :=
| A_addTodo (payload : Todo)
| A_toggleTodo (payload : string)
| A_removeTodo (payload : string)
| A_clearTodos.

(** The [prepare] callback of [addTodo]; [nanoid_result] and [now] are
    what [nanoid()] and [Date.now()] returned. *)
Definition prepare (title : string) (nanoid_result : string) (now : Z) : Todo :=
  {| id := nanoid_result; title := title; done := false; createdAt := now |}.

(** [t.done = v] on a todo. *)
Definition set_done (v : bool) (t : Todo) : Todo :=
  {| id := id t; title := title t; done := v; createdAt := createdAt t |}.

(** Which way [toggleTodo] goes. *)
Inductive Branch := NotFound | MoveToDone | MoveBack.

Module reducers.
(* state.items.unshift(action.payload) *)
Definition addTodo (state : State) (payload : Todo) : State :=
  {| items := payload :: items state; doneItems := doneItems state |}.

(* The todo [t] found by [find] is an element of [state.items]: the
   assignment [t.done = !t.done] is seen through the array, at the
   index [i] where it was found. *)
Definition toggleTodo (state : State) (payload : string) : State :=
  match list_find (λ x, id x = payload) (items state) with
  | Some (i, t) =>
      let t' := set_done (negb (done t)) t in
      let items1 := <[i := t']> (items state) in
      if done t' then
        {| items := filter (λ item, id item ≠ payload) items1;
           doneItems := doneItems state ++ [t'] |}
      else
        {| items := t' :: items1;
           doneItems := filter (λ item, id item ≠ payload) (doneItems state) |}
  | None => state
  end.

(** The control flow of [toggleTodo] alone. *)
Definition toggleTodo_branch (state : State) (payload : string) : Branch :=
  match list_find (λ x, id x = payload) (items state) with
  | Some (i, t) => if negb (done t) then MoveToDone else MoveBack
  | None => NotFound
  end.

Definition removeTodo (state : State) (payload : string) : State :=
  {| items := filter (λ x, id x ≠ payload) (items state);
     doneItems := filter (λ x, id x ≠ payload) (doneItems state) |}.

Definition clearTodos (state : State) : State :=
  {| items := []; doneItems := [] |}.
End reducers.

Definition reducer (state : State) (action : Action) : State :=
  match action with
  | A_addTodo p => reducers.addTodo state p
  | A_toggleTodo p => reducers.toggleTodo state p
  | A_removeTodo p => reducers.removeTodo state p
  | A_clearTodos => reducers.clearTodos state
  end.

(** The action creators, as the components call them. *)
Definition addTodo (title : string) (nanoid_result : string) (now : Z) : Action :=
  A_addTodo (prepare title nanoid_result now).
Definition toggleTodo (i : string) : Action := A_toggleTodo i.
Definition removeTodo (i : string) : Action := A_removeTodo i.
Definition clearTodos : Action := A_clearTodos.

(** The ids held by a list of todos, and by both lists of a state. *)
Definition ids (l : list Todo) : list string := id <$> l.
Definition all_ids (state : State) : list string :=
  ids (items state) ++ ids (doneItems state).

(** One call of an action creator followed by its dispatch. *)
Inductive Call :=
| CallAdd (title : string) (nanoid_result : string) (now : Z)
| CallToggle (i : string)
| CallRemove (i : string)
| CallClear.

Definition action_of (c : Call) : Action :=
  match c with
  | CallAdd ti n now => addTodo ti n now
  | CallToggle i => toggleTodo i
  | CallRemove i => removeTodo i
  | CallClear => clearTodos
  end.

Definition step (state : State) (c : Call) : State :=
  reducer state (action_of c).

Definition run (calls : list Call) (state : State) : State :=
  foldl step state calls.

(** The ids [nanoid()] handed out during a sequence of calls, in order. *)
Fixpoint nanoid_results (calls : list Call) : list string :=
  match calls with
  | [] => []
  | CallAdd _ n _ :: rest => n :: nanoid_results rest
  | _ :: rest => nanoid_results rest
  end.

(** *** Predicates used by the statements *)

(** What the specification asks of [toggleTodo] on an active id: the
    todo, flagged done, is the new last element of [doneItems], and the
    id is gone from [items]. *)
Definition moved_to_done (st : State) (p : string) (st' : State) : Prop :=
  ∃ t, t ∈ items st ∧ id t = p
       ∧ doneItems st' = doneItems st ++ [set_done true t]
       ∧ p ∉ ids (items st').

(** What the specification asks of [toggleTodo] on a done id: the todo is
    the new first element of [items], and the id is gone from
    [doneItems]. *)
Definition moved_back (st : State) (p : string) (st' : State) : Prop :=
  ∃ t, t ∈ doneItems st ∧ id t = p
       ∧ items st' = set_done false t :: items st
       ∧ p ∉ ids (doneItems st').

(** The first todo of a list that carries the id, as [find] returns it. *)
Definition first_with_id (p : string) (l : list Todo) : option Todo :=
  snd <$> list_find (λ x, id x = p) l.

(** Active todos are not flagged done, completed ones are. *)
Definition flags_ok (st : State) : Prop :=
  Forall (λ t, done t = false) (items st)
  ∧ Forall (λ t, done t = true) (doneItems st).

(** No id occurs twice over the two lists, and every id of the state is
    one of the ids [h] that [nanoid()] has handed out so far. *)
Definition ids_ok (h : list string) (st : State) : Prop :=
  NoDup (all_ids st) ∧ ∀ x, x ∈ all_ids st → x ∈ h.

(** Modelled from the spec: [nanoid()] is a function of the Redux Toolkit
    library, whose code is not part of the repository.  The specification
    asks of the generator a fresh unique identifier, unique and non-empty,
    from any collision-resistant identifier generator.
    For one call, on a given state: the result is non-empty and is the
    id of no todo of the state. *)
Definition nanoid_fresh_for (state : State) (nanoid_result : string) : Prop :=
  nanoid_result ≠ EmptyString ∧ nanoid_result ∉ all_ids state.

(** Modelled from the spec: the same contract over a run of calls, where
    [nanoid()] never returns the same id twice. *)
Definition nanoid_collision_free (calls : list Call) : Prop :=
  NoDup (nanoid_results calls).

(** The [Date.now()] readings taken during a sequence of calls, in order. *)
Fixpoint clock_readings (calls : list Call) : list Z :=
  match calls with
  | [] => []
  | CallAdd _ _ now :: rest => now :: clock_readings rest
  | _ :: rest => clock_readings rest
  end.

(** A list of todos in which every todo is at least as recent as the
    todos after it. *)
Definition newest_first (l : list Todo) : Prop :=
  StronglySorted (λ a b, createdAt b ≤ createdAt a) l.

(** Every title of the state has the property [P]. *)
Definition titles_ok (P : string → Prop) (st : State) : Prop :=
  Forall (λ t, P (title t)) (items st) ∧ Forall (λ t, P (title t)) (doneItems st).

Definition is_add (c : Call) : bool :=
  match c with
  | CallAdd _ _ _ => true
  | _ => false
  end.

End todosSlice.

(** ** The store: [configureStore] over the three slices *)

Module store.

Record State := mkState {
  ui : uiSlice.State;
  counter : counterSlice.State;
  todos : todosSlice.State;
}.

Inductive Action :=
| UI (a : uiSlice.Action)
| Counter (a : counterSlice.Action)
| Todos (a : todosSlice.Action).

(** A slice reducer answers the actions whose type carries its slice
    name and returns its state as it is on every other action. *)
Definition ui_reducer (s : uiSlice.State) (action : Action) : uiSlice.State :=
  match action with
  | UI a => uiSlice.reducer s a
  | _ => s
  end.

Definition counter_reducer (s : counterSlice.State) (action : Action)
  : counterSlice.State :=
  match action with
  | Counter a => counterSlice.reducer s a
  | _ => s
  end.

Definition todos_reducer (s : todosSlice.State) (action : Action)
  : todosSlice.State :=
  match action with
  | Todos a => todosSlice.reducer s a
  | _ => s
  end.

(** The root reducer hands every action to the three slice reducers. *)
Definition reducer (state : State) (action : Action) : State :=
  {| ui := ui_reducer (ui state) action;
     counter := counter_reducer (counter state) action;
     todos := todos_reducer (todos state) action |}.

Definition initialState : State :=
  {| ui := uiSlice.initialState;
     counter := counterSlice.initialState;
     todos := todosSlice.initialState |}.

Definition dispatch (state : State) (action : Action) : State :=
  reducer state action.

(** Dispatching a sequence of actions, first to last. *)
Definition run (actions : list Action) (state : State) : State :=
  foldl dispatch state actions.

(** The [name] of the slice an action belongs to (the prefix of its type). *)
Definition slice_name (action : Action) : string :=
  match action with
  | UI _ => "ui"
  | Counter _ => "counter"
  | Todos _ => "todos"
  end.

(** The actions of a sequence that belong to one slice, in order. *)
Definition ui_actions (actions : list Action) : list uiSlice.Action :=
  omap (λ a, match a with UI u => Some u | _ => None end) actions.

Definition counter_actions (actions : list Action) : list counterSlice.Action :=
  omap (λ a, match a with Counter c => Some c | _ => None end) actions.

Definition todos_actions (actions : list Action) : list todosSlice.Action :=
  omap (λ a, match a with Todos t => Some t | _ => None end) actions.

End store.

(** ** Components

    The parts of the components that read the store or dispatch to it.
    Layout, styles, haptics and the formatting of dates are left out. *)

(** [ThemedApp]: the theme handed to the Paper provider. *)
Module ThemedApp.

Inductive Theme := MD3DarkTheme | MD3LightTheme.

(* darkMode ? MD3DarkTheme : MD3LightTheme *)
Definition theme (s : store.State) : Theme :=
  if uiSlice.darkMode (store.ui s) then MD3DarkTheme else MD3LightTheme.

End ThemedApp.

(** [AppScaffold]: the tablet breakpoint and the banner.  A window width
    is a finite JavaScript number, hence a rational. *)
Module AppScaffold.

(* const isTablet = width >= 768 *)
Definition isTablet (width : QArith_base.Q) : bool :=
  QArith_base.Qle_bool (QArith_base.inject_Z 768) width.

(* {showBanner && <Banner ... />} *)
Definition banner_rendered (s : store.State) : bool :=
  uiSlice.showBanner (store.ui s).

(* onPress of the banner's action *)
Definition pressGotIt (s : store.State) : store.State :=
  store.dispatch s (store.UI uiSlice.A_dismissBanner).

End AppScaffold.

(** [CounterCard]: the Add and Subtract buttons.  [number_result] is what
    [Number(customAmount)] returned; [haptics_resolved] says whether the
    awaited haptics call resolved (a rejected promise ends [bump] before
    the dispatch). *)
Module CounterCard.

(* Number(customAmount) || 0 *)
Definition amount (number_result : JsNumber.t) : JsNumber.t :=
  if JsNumber.truthy number_result then number_result else JsNumber.Fin 0.

Definition bump (haptics_resolved : bool) (delta : JsNumber.t) (s : store.State)
  : store.State :=
  if haptics_resolved
  then store.dispatch s (store.Counter (counterSlice.A_addByAmount delta))
  else s.

(* bump(Number(customAmount) || 0) *)
Definition pressAdd (haptics_resolved : bool) (number_result : JsNumber.t)
    (s : store.State) : store.State :=
  bump haptics_resolved (amount number_result) s.

(* bump(-(Number(customAmount) || 0)) *)
Definition pressSubtract (haptics_resolved : bool) (number_result : JsNumber.t)
    (s : store.State) : store.State :=
  bump haptics_resolved (JsNumber.neg (amount number_result)) s.

End CounterCard.

(** [String.prototype.trim].  A text is held as the bytes of its UTF-8
    encoding.  The white space and line terminators of the language are
    U+0009 to U+000D, U+0020, U+00A0, U+1680, U+2000 to U+200A, U+2028,
    U+2029, U+202F, U+205F, U+3000 and U+FEFF; they take one, two or
    three bytes. *)
Module JsString.

Definition is_space1 (c : Ascii.ascii) : bool :=
  match Ascii.nat_of_ascii c with
  | 9%nat | 10%nat | 11%nat | 12%nat | 13%nat | 32%nat => true
  | _ => false
  end.

(* U+00A0 *)
Definition is_space2 (c1 c2 : Ascii.ascii) : bool :=
  (Ascii.nat_of_ascii c1 =? 194)%nat && (Ascii.nat_of_ascii c2 =? 160)%nat.

Definition is_space3 (c1 c2 c3 : Ascii.ascii) : bool :=
  let n1 := Ascii.nat_of_ascii c1 in
  let n2 := Ascii.nat_of_ascii c2 in
  let n3 := Ascii.nat_of_ascii c3 in
  (* U+1680 *)
  ((n1 =? 225) && (n2 =? 154) && (n3 =? 128)
  (* U+2000 to U+200A, U+2028, U+2029, U+202F *)
  || (n1 =? 226) && (n2 =? 128)
     && ((128 <=? n3) && (n3 <=? 138) || (n3 =? 168) || (n3 =? 169) || (n3 =? 175))
  (* U+205F *)
  || (n1 =? 226) && (n2 =? 129) && (n3 =? 159)
  (* U+3000 *)
  || (n1 =? 227) && (n2 =? 128) && (n3 =? 128)
  (* U+FEFF *)
  || (n1 =? 239) && (n2 =? 187) && (n3 =? 191))%nat.

Fixpoint trimStart (s : string) : string :=
  match s with
  | EmptyString => EmptyString
  | String c1 r1 =>
      if is_space1 c1 then trimStart r1
      else
        match r1 with
        | EmptyString => s
        | String c2 r2 =>
            if is_space2 c1 c2 then trimStart r2
            else
              match r2 with
              | EmptyString => s
              | String c3 r3 =>
                  if is_space3 c1 c2 c3 then trimStart r3 else s
              end
        end
  end.

(** The text is cut where only white space follows. *)
Fixpoint trimEnd (s : string) : string :=
  match s with
  | EmptyString => EmptyString
  | String c rest =>
      match trimStart s with
      | EmptyString => EmptyString
      | _ => String c (trimEnd rest)
      end
  end.

Definition trim (s : string) : string := trimEnd (trimStart s).

End JsString.

(** [TodosCard]: the local state of the card, its handlers and the cards
    it renders for the two lists. *)
Module TodosCard.

Record Local := mkLocal { title : string; showBanner : bool }.

(* useState(EmptyString), useState(false) *)
Definition initialLocal : Local :=
  {| title := EmptyString; showBanner := false |}.

(* const numColumns = width >= 900 ? 2 : 1 *)
Definition numColumns (width : QArith_base.Q) : nat :=
  if QArith_base.Qle_bool (QArith_base.inject_Z 900) width then 2%nat else 1%nat.

(** [handleAddTodo]; [trim] is [String.prototype.trim], and an empty
    string is the only falsy string. *)
Definition handleAddTodo (trim : string → string)
    (nanoid_result : string) (now : Z)
    (local : Local) (s : store.State) : Local * store.State :=
  if bool_decide (trim (title local) = EmptyString) then (local, s)
  else
    ({| title := EmptyString; showBanner := true |},
     store.dispatch s
       (store.Todos (todosSlice.addTodo (trim (title local)) nanoid_result now))).

(** What [renderItem] shows for a todo and what its two buttons dispatch. *)
Record ItemCard := mkItemCard {
  card_title : string;
  icon : string;
  toggle_label : string;
  onToggle : store.Action;
  onRemove : store.Action;
}.

(** [renderItem] of the list of active todos. *)
Definition renderItem (item : todosSlice.Todo) : ItemCard :=
  {| card_title := todosSlice.title item;
     icon := if todosSlice.done item then "check" else "circle-outline";
     toggle_label := if todosSlice.done item then "Undo" else "Done";
     onToggle := store.Todos (todosSlice.toggleTodo (todosSlice.id item));
     onRemove := store.Todos (todosSlice.removeTodo (todosSlice.id item)) |}.

(** [renderItem] of the list of done todos. *)
Definition renderDoneItem (item : todosSlice.Todo) : ItemCard :=
  {| card_title := todosSlice.title item;
     icon := "check";
     toggle_label := "Undo";
     onToggle := store.Todos (todosSlice.toggleTodo (todosSlice.id item));
     onRemove := store.Todos (todosSlice.removeTodo (todosSlice.id item)) |}.

Definition active_cards (s : store.State) : list ItemCard :=
  renderItem <$> todosSlice.items (store.todos s).

Definition done_cards (s : store.State) : list ItemCard :=
  renderDoneItem <$> todosSlice.doneItems (store.todos s).

(* {items.length > 0 && <Button ...>Clear All</Button>} *)
Definition clear_all_rendered (s : store.State) : bool :=
  bool_decide (0 < length (todosSlice.items (store.todos s)))%nat.

(** What the user and the timer can do to the card. *)
Inductive Event :=
| ChangeText (text : string)
| Submit (nanoid_result : string) (now : Z)
| PressToggle (i : string)
| PressRemove (i : string)
| PressClearAll
| BannerGotIt
| BannerTimeout.

Definition handle (trim : string → string) (st : Local * store.State) (ev : Event)
  : Local * store.State :=
  let '(local, s) := st in
  match ev with
  | ChangeText text => ({| title := text; showBanner := showBanner local |}, s)
  | Submit n now => handleAddTodo trim n now local s
  | PressToggle i => (local, store.dispatch s (store.Todos (todosSlice.toggleTodo i)))
  | PressRemove i => (local, store.dispatch s (store.Todos (todosSlice.removeTodo i)))
  | PressClearAll => (local, store.dispatch s (store.Todos todosSlice.clearTodos))
  | BannerGotIt | BannerTimeout => ({| title := title local; showBanner := false |}, s)
  end.

Definition run (trim : string → string) (events : list Event)
    (st : Local * store.State) : Local * store.State :=
  foldl (handle trim) st events.

(** The todo calls behind a sequence of events: a [Submit] is a call of
    [addTodo] when the trimmed text is not empty, and clears the text. *)
Fixpoint calls_of (trim : string → string) (text : string) (events : list Event)
  : list todosSlice.Call :=
  match events with
  | [] => []
  | ChangeText text' :: rest => calls_of trim text' rest
  | Submit n now :: rest =>
      if bool_decide (trim text = EmptyString) then calls_of trim text rest
      else todosSlice.CallAdd (trim text) n now :: calls_of trim EmptyString rest
  | PressToggle i :: rest => todosSlice.CallToggle i :: calls_of trim text rest
  | PressRemove i :: rest => todosSlice.CallRemove i :: calls_of trim text rest
  | PressClearAll :: rest => todosSlice.CallClear :: calls_of trim text rest
  | (BannerGotIt | BannerTimeout) :: rest => calls_of trim text rest
  end.

End TodosCard.

(** * Properties *)

(** ** UI *)

(** C8: [toggleDarkMode] negates [darkMode] and keeps [showBanner]; applied
    twice it gives the state back. *)
Theorem toggleDarkMode_involution (s : uiSlice.State) :
  uiSlice.darkMode (uiSlice.reducers.toggleDarkMode s) = negb (uiSlice.darkMode s)
  ∧ uiSlice.showBanner (uiSlice.reducers.toggleDarkMode s) = uiSlice.showBanner s
  ∧ uiSlice.darkMode
      (uiSlice.reducers.toggleDarkMode (uiSlice.reducers.toggleDarkMode s))
    = uiSlice.darkMode s
  ∧ uiSlice.reducer (uiSlice.reducer s uiSlice.A_toggleDarkMode)
      uiSlice.A_toggleDarkMode = s.
Proof.
  destruct s as [[] sb]; repeat split; reflexivity.
Qed.

(** ** JavaScript numbers *)

Example js_add_tenths :
  JsNumber.add (JsNumber.Fin (7205759403792794 * 2 ^ 1018))
               (JsNumber.Fin (7205759403792794 * 2 ^ 1019))
  = JsNumber.Fin (5404319552844596 * 2 ^ 1020).
Proof. vm_compute. reflexivity. Qed.

Example js_add_beyond_2_53 :
  JsNumber.add (JsNumber.integer (2 ^ 53)) (JsNumber.integer 1)
  = JsNumber.integer (2 ^ 53)
  ∧ JsNumber.add (JsNumber.integer (2 ^ 53 + 2)) (JsNumber.integer 1)
    = JsNumber.integer (2 ^ 53 + 4)
  ∧ JsNumber.add JsNumber.PosInfinity JsNumber.NegInfinity = JsNumber.NaN
  ∧ JsNumber.add (JsNumber.Fin ((2 ^ 53 - 1) * 2 ^ 2045))
                 (JsNumber.Fin ((2 ^ 53 - 1) * 2 ^ 2045))
    = JsNumber.PosInfinity.
Proof. vm_compute. repeat split; reflexivity. Qed.

(** [JsNumber.add] next to the addition of the binary64 specification of
    the standard library, on the operands of the two examples above. *)
Example js_add_agrees_with_SFadd :
  let tenth := SpecFloat.S754_finite false 7205759403792794 (-56) in
  let fifth := SpecFloat.S754_finite false 7205759403792794 (-55) in
  let big := SpecFloat.S754_finite false 4503599627370496 1 in
  let one := SpecFloat.S754_finite false 4503599627370496 (-52) in
  let minus_one := SpecFloat.S754_finite true 4503599627370496 (-52) in
  let tiny := SpecFloat.S754_finite false 3 (-1074) in
  Forall (λ xy, JsNumber.of_spec (SpecFloat.SFadd 53 1024 xy.1 xy.2)
                = JsNumber.add (JsNumber.of_spec xy.1) (JsNumber.of_spec xy.2))
    [(tenth, fifth); (big, one); (big, minus_one); (one, minus_one);
     (tiny, one); (tiny, tiny); (big, big);
     (SpecFloat.S754_zero true, SpecFloat.S754_zero true);
     (SpecFloat.S754_zero true, SpecFloat.S754_zero false);
     (SpecFloat.S754_infinity false, SpecFloat.S754_infinity true);
     (SpecFloat.S754_infinity true, one); (SpecFloat.S754_nan, one)].
Proof. repeat constructor; vm_compute; reflexivity. Qed.

Lemma scale_pos : 0 < JsNumber.scale.
Proof. unfold JsNumber.scale. apply Z.pow_pos_nonneg; lia. Qed.

Lemma safeb_spec z : JsNumber.safeb z = true ↔ JsNumber.safe z.
Proof.
  unfold JsNumber.safeb, JsNumber.safe.
  rewrite andb_true_iff, !Z.leb_le. reflexivity.
Qed.

Lemma round_representable k :
  JsNumber.representable k → JsNumber.round k = JsNumber.Fin k.
Proof.
  intros [Hdiv Hlt]. unfold JsNumber.round.
  destruct (Z.eqb_spec k 0) as [->|Hk]; [reflexivity|].
  cbv zeta.
  set (a := Z.abs k) in *. set (s := Z.max (Z.log2 a - 52) 0) in *.
  assert (Hs : 0 < 2 ^ s) by (apply Z.pow_pos_nonneg; [lia|apply Z.le_max_r]).
  generalize dependent (2 ^ s). intros b Hdiv Hb.
  assert (Hr : a mod b = 0) by (apply Z.mod_divide; [lia|done]).
  rewrite Hr. replace (2 * 0 <? b) with true by (symmetry; apply Z.ltb_lt; lia).
  assert (Hq : a / b * b = a).
  { rewrite Z.mul_comm. symmetry. apply Z.div_exact; [lia|done]. }
  rewrite Hq.
  replace (2 ^ 2098 <=? a) with false by (symmetry; by apply Z.leb_gt).
  f_equal. unfold a. destruct k; simpl; lia.
Qed.

Lemma integer_representable z :
  JsNumber.safe z → JsNumber.representable (z * JsNumber.scale).
Proof.
  intros Hz. unfold JsNumber.representable.
  destruct (decide (z = 0)) as [->|Hnz].
  { rewrite Z.mul_0_l. cbn [Z.abs]. split.
    - apply Z.divide_0_r.
    - apply Z.pow_pos_nonneg; lia. }
  pose proof scale_pos as Hsc.
  rewrite Z.abs_mul, (Z.abs_eq JsNumber.scale) by lia.
  set (n := Z.abs z).
  assert (Hn : 0 < n) by (unfold n; lia).
  assert (Hn53 : n ≤ 2 ^ 53) by (unfold n, JsNumber.safe in *; lia).
  unfold JsNumber.scale at 1. rewrite Z.log2_mul_pow2 by lia.
  pose proof (Z.log2_nonneg n) as HL0.
  destruct (Z.log2_spec n Hn) as [HLlo HLhi].
  assert (HL53 : Z.log2 n ≤ 53).
  { rewrite <- (Z.log2_pow2 53) by lia. by apply Z.log2_le_mono. }
  set (L := Z.log2 n) in *.
  rewrite Z.max_l by lia. split.
  - destruct (decide (L ≤ 52)) as [Hle|Hgt].
    + exists (n * 2 ^ (52 - L)). unfold JsNumber.scale.
      rewrite <- Z.mul_assoc, <- Z.pow_add_r by lia. do 2 f_equal. lia.
    + assert (L = 53) as HL by lia. rewrite HL in *.
      assert (n = 2 ^ 53) as -> by lia.
      exists (2 ^ 52). unfold JsNumber.scale.
      rewrite <- !Z.pow_add_r by lia. f_equal.
  - apply Z.le_lt_trans with (2 ^ 53 * JsNumber.scale).
    + apply Z.mul_le_mono_nonneg_r; lia.
    + unfold JsNumber.scale. rewrite <- Z.pow_add_r by lia.
      apply Z.pow_lt_mono_r; lia.
Qed.


Lemma add_integer a b :
  JsNumber.safe (a + b) →
  JsNumber.add (JsNumber.integer a) (JsNumber.integer b) = JsNumber.integer (a + b).
Proof.
  intros Hab. unfold JsNumber.integer, JsNumber.add.
  rewrite <- Z.mul_add_distr_r.
  by apply round_representable, integer_representable.
Qed.

Lemma neg_integer z :
  z ≠ 0 → JsNumber.neg (JsNumber.integer z) = JsNumber.integer (- z).
Proof.
  intros Hz. pose proof scale_pos. unfold JsNumber.integer, JsNumber.neg.
  destruct (Z.eqb_spec (z * JsNumber.scale) 0) as [H0|_]; [nia|].
  by rewrite Z.mul_opp_l.
Qed.


(** ** Counter *)

Lemma counter_run_cons a actions s :
  counterSlice.run (a :: actions) s
  = counterSlice.run actions (counterSlice.reducer s a).
Proof. reflexivity. Qed.

Example counter_run_example :
  counterSlice.value
    (counterSlice.run
       (counterSlice.action_of <$>
          [counterSlice.T_increment; counterSlice.T_addByAmount 5;
           counterSlice.T_reset; counterSlice.T_decrement;
           counterSlice.T_addByAmount (-3)])
       {| counterSlice.value := JsNumber.integer 7 |}) = JsNumber.integer (-4).
Proof. vm_compute. reflexivity. Qed.

Example counter_run_no_reset_example :
  counterSlice.value
    (counterSlice.run
       (counterSlice.action_of <$>
          [counterSlice.T_increment; counterSlice.T_addByAmount 5;
           counterSlice.T_decrement])
       {| counterSlice.value := JsNumber.integer 7 |}) = JsNumber.integer 12.
Proof. vm_compute. reflexivity. Qed.







(** ** Todos: list lemmas *)

Section TodoLists.
Import todosSlice.

Implicit Types (l : list Todo) (p : string) (t : Todo).

Lemma ids_app l1 l2 : ids (l1 ++ l2) = ids l1 ++ ids l2.
Proof. unfold ids. apply fmap_app. Qed.

Lemma id_set_done v t : id (set_done v t) = id t.
Proof. reflexivity. Qed.

Lemma elem_of_ids p l : p ∈ ids l ↔ ∃ t, t ∈ l ∧ id t = p.
Proof.
  unfold ids. rewrite list_elem_of_fmap. split.
  - intros (t & -> & Ht). eauto.
  - intros (t & Ht & <-). eauto.
Qed.

Lemma ids_filter p l :
  ids (filter (λ x, id x ≠ p) l) = filter (λ y, y ≠ p) (ids l).
Proof.
  induction l as [|x l IH]; [reflexivity|].
  cbn [ids fmap list_fmap]. destruct (decide (id x = p)) as [Heq|Hne].
  - rewrite !filter_cons_False by (intros H; by apply H). exact IH.
  - rewrite !filter_cons_True by done. cbn. f_equal. exact IH.
Qed.

Lemma filter_absent p l : p ∉ ids l → filter (λ x, id x ≠ p) l = l.
Proof.
  induction l as [|x l IH]; [reflexivity|].
  cbn [ids fmap list_fmap]. rewrite not_elem_of_cons. intros [Hx Hl].
  rewrite filter_cons_True by congruence. f_equal. by apply IH.
Qed.

Lemma find_absent p l : p ∉ ids l → list_find (λ x, id x = p) l = None.
Proof.
  intros Hp. apply list_find_None, Forall_forall. intros x Hx Heq.
  apply Hp, elem_of_ids. eauto.
Qed.

Lemma find_present p l :
  p ∈ ids l → ∃ i t, list_find (λ x, id x = p) l = Some (i, t).
Proof.
  intros (t & Ht & Hid)%elem_of_ids.
  destruct (list_find_elem_of (λ x, id x = p) l t Ht Hid) as [[i t'] H].
  eauto.
Qed.

Lemma find_Some_inv p l i t :
  list_find (λ x, id x = p) l = Some (i, t) →
  l !! i = Some t ∧ id t = p ∧ t ∈ l.
Proof.
  intros (Hi & Hp & _)%list_find_Some. split_and!; [done..|].
  by eapply list_elem_of_lookup_2.
Qed.

(** Filtering the id out forgets the assignment made to the found todo. *)
Lemma filter_insert_found p l i t v :
  list_find (λ x, id x = p) l = Some (i, t) →
  filter (λ x, id x ≠ p) (<[i := set_done v t]> l) = filter (λ x, id x ≠ p) l.
Proof.
  intros (Hi & Hp & _)%find_Some_inv.
  assert (Hlen : (i < length l)%nat) by (by eapply lookup_lt_Some).
  rewrite insert_take_drop by done.
  rewrite <- (take_drop_middle l i t Hi) at 3.
  rewrite !filter_app. f_equal.
  rewrite !filter_cons_False; [done| |]; intros H; by apply H.
Qed.

End TodoLists.

(** ** Todos: what each case reducer does *)

Example todos_run_example :
  todosSlice.run
    [todosSlice.CallAdd "Buy milk" "a" 0;
     todosSlice.CallAdd "Walk" "b" 1;
     todosSlice.CallAdd "Read" "c" 2;
     todosSlice.CallToggle "b";
     todosSlice.CallToggle "c";
     todosSlice.CallRemove "zzz";
     todosSlice.CallToggle "b"]
    todosSlice.initialState
  = {| todosSlice.items := [todosSlice.prepare "Buy milk" "a" 0];
       todosSlice.doneItems :=
         [todosSlice.set_done true (todosSlice.prepare "Walk" "b" 1);
          todosSlice.set_done true (todosSlice.prepare "Read" "c" 2)] |}.
Proof. reflexivity. Qed.

Section TodoReducers.
Import todosSlice.

Implicit Types (st : State) (p : string) (t : Todo).

Lemma toggleTodo_not_in_items st p :
  p ∉ ids (items st) → reducers.toggleTodo st p = st.
Proof.
  intros Hp. unfold reducers.toggleTodo. by rewrite find_absent.
Qed.

Lemma toggleTodo_found_active st p i t :
  list_find (λ x, id x = p) (items st) = Some (i, t) →
  done t = false →
  reducers.toggleTodo st p
  = {| items := filter (λ x, id x ≠ p) (items st);
       doneItems := doneItems st ++ [set_done true t] |}.
Proof.
  intros Hfind Hdone. unfold reducers.toggleTodo. rewrite Hfind, Hdone. cbn.
  by rewrite (filter_insert_found p (items st) i t true Hfind).
Qed.

Lemma toggleTodo_found_done st p i t :
  list_find (λ x, id x = p) (items st) = Some (i, t) →
  done t = true →
  reducers.toggleTodo st p
  = {| items := set_done false t :: <[i := set_done false t]> (items st);
       doneItems := filter (λ x, id x ≠ p) (doneItems st) |}.
Proof.
  intros Hfind Hdone. unfold reducers.toggleTodo.
  rewrite Hfind, Hdone. reflexivity.
Qed.

(** [toggleTodo_branch] names the branch [toggleTodo] takes. *)
Lemma toggleTodo_branch_spec st p :
  match reducers.toggleTodo_branch st p with
  | NotFound => (p ∉ ids (items st)) ∧ reducers.toggleTodo st p = st
  | MoveToDone =>
      ∃ t, first_with_id p (items st) = Some t ∧ done t = false
           ∧ reducers.toggleTodo st p
             = {| items := filter (λ x, id x ≠ p) (items st);
                  doneItems := doneItems st ++ [set_done true t] |}
  | MoveBack =>
      ∃ i t, list_find (λ x, id x = p) (items st) = Some (i, t)
             ∧ done t = true
             ∧ reducers.toggleTodo st p
               = {| items := set_done false t :: <[i := set_done false t]> (items st);
                    doneItems := filter (λ x, id x ≠ p) (doneItems st) |}
  end.
Proof.
  unfold reducers.toggleTodo_branch, first_with_id.
  destruct (list_find _ (items st)) as [[i t]|] eqn:Hfind.
  - destruct (done t) eqn:Hdone; cbn.
    + exists i, t. eauto using toggleTodo_found_done.
    + exists t. eauto using toggleTodo_found_active.
  - assert (p ∉ ids (items st)) as Hp.
    { intros (i & t & H)%find_present. congruence. }
    eauto using toggleTodo_not_in_items.
Qed.

Lemma removeTodo_absent st p :
  p ∉ ids (items st) → p ∉ ids (doneItems st) → reducers.removeTodo st p = st.
Proof.
  intros Hi Hd. unfold reducers.removeTodo.
  rewrite !filter_absent by done. by destruct st.
Qed.

End TodoReducers.

(** On any state: when the first todo of [items] with the id is not
    flagged done, [toggleTodo] flags it done, appends it at the end of
    [doneItems] and removes the id from [items], keeping the other
    items in order. *)
Lemma toggleTodo_moves_unflagged_to_done
    (st : todosSlice.State) (p : string) (t : todosSlice.Todo) :
  todosSlice.first_with_id p (todosSlice.items st) = Some t →
  todosSlice.done t = false →
  let st' := todosSlice.reducer st (todosSlice.toggleTodo p) in
  todosSlice.moved_to_done st p st'
  ∧ todosSlice.doneItems st'
    = todosSlice.doneItems st ++ [todosSlice.set_done true t]
  ∧ last (todosSlice.doneItems st') = Some (todosSlice.set_done true t)
  ∧ todosSlice.done (todosSlice.set_done true t) = true
  ∧ todosSlice.items st'
    = filter (λ x, todosSlice.id x ≠ p) (todosSlice.items st).
Proof.
  unfold todosSlice.first_with_id. intros Hfirst Hdone.
  destruct (list_find _ (todosSlice.items st)) as [[i t0]|] eqn:Hfind;
    [|discriminate].
  cbn in Hfirst. injection Hfirst as ->.
  cbv zeta. cbn [todosSlice.reducer todosSlice.toggleTodo].
  rewrite (toggleTodo_found_active st p i t Hfind Hdone).
  cbn [todosSlice.items todosSlice.doneItems].
  destruct (find_Some_inv p _ i t Hfind) as (_ & Hid & Hin).
  split_and!; try done.
  - exists t. split_and!; try done.
    cbn [todosSlice.items]. rewrite ids_filter. intros [Hne _]%list_elem_of_filter. by apply Hne.
  - by rewrite last_snoc.
Qed.

(** C1: evaluation of [toggleTodo] on an id that sits in [doneItems].
    The state is the one reached by adding a todo and toggling it once;
    the second toggle looks the id up in [items] only, finds nothing and
    returns the state as it is: the todo stays in [doneItems]. *)
Theorem toggleTodo_twice_stays_done :
  let st := todosSlice.run
              [todosSlice.CallAdd "Buy milk" "a" 0; todosSlice.CallToggle "a"]
              todosSlice.initialState in
  st = {| todosSlice.items := [];
          todosSlice.doneItems :=
            [{| todosSlice.id := "a"; todosSlice.title := "Buy milk";
                todosSlice.done := true; todosSlice.createdAt := 0 |}] |}
  ∧ "a" ∈ todosSlice.ids (todosSlice.doneItems st)
  ∧ todosSlice.reducer st (todosSlice.toggleTodo "a") = st
  ∧ ¬ todosSlice.moved_back st "a" (todosSlice.reducer st (todosSlice.toggleTodo "a")).
Proof.
  intros st. split_and!.
  - reflexivity.
  - apply elem_of_ids. eexists. split; [apply list_elem_of_here|reflexivity].
  - reflexivity.
  - intros (t & _ & _ & Hitems & _). vm_compute in Hitems. discriminate.
Qed.

(** C5: [addTodo(title)] puts one new todo in front of [items], with the
    title, [done = false], the current time and the id [nanoid()] returned;
    the other items and [doneItems] are as before.  The id is non-empty and
    differs from every id of the state as far as [nanoid()] keeps its
    contract, which is the hypothesis on [nanoid_result]. *)
Theorem addTodo_inserts_fresh_todo_at_front
    (st : todosSlice.State) (title nanoid_result : string) (now : Z) :
  todosSlice.nanoid_fresh_for st nanoid_result →
  let st' := todosSlice.reducer st (todosSlice.addTodo title nanoid_result now) in
  ∃ t, todosSlice.items st' = t :: todosSlice.items st
       ∧ todosSlice.items st' !! 0%nat = Some t
       ∧ todosSlice.doneItems st' = todosSlice.doneItems st
       ∧ todosSlice.title t = title
       ∧ todosSlice.done t = false
       ∧ todosSlice.createdAt t = now
       ∧ todosSlice.id t = nanoid_result
       ∧ todosSlice.id t ≠ EmptyString
       ∧ (todosSlice.id t ∉ todosSlice.all_ids st)
       ∧ (NoDup (todosSlice.all_ids st) → NoDup (todosSlice.all_ids st')).
Proof.
  intros [Hne Hfresh] st'.
  exists (todosSlice.prepare title nanoid_result now).
  split_and!; try done.
  intros Hnd. subst st'. unfold todosSlice.all_ids. cbn.
  apply NoDup_cons. split; [exact Hfresh|exact Hnd].
Qed.

Lemma addTodo_inserts_fresh_todo_at_front_witness :
  let st := {| todosSlice.items := [todosSlice.prepare "Walk" "b" 0];
               todosSlice.doneItems := [todosSlice.set_done true
                                          (todosSlice.prepare "Read" "c" 1)] |} in
  todosSlice.nanoid_fresh_for st "a"
  ∧ ∃ t, todosSlice.items
           (todosSlice.reducer st (todosSlice.addTodo "Buy milk" "a" 2))
         = t :: todosSlice.items st
         ∧ todosSlice.title t = "Buy milk".
Proof.
  intros st.
  assert (H : todosSlice.nanoid_fresh_for st "a").
  { split; [discriminate|]. apply (bool_decide_unpack _). vm_compute. reflexivity. }
  split; [exact H|].
  destruct (addTodo_inserts_fresh_todo_at_front st "Buy milk" "a" 2 H)
    as (t & Hitems & _ & _ & Htitle & _).
  exists t. split; [exact Hitems|exact Htitle].
Defined.

(** C6: on an id that is in neither list, [toggleTodo] and [removeTodo]
    return the state they were given. *)
Theorem toggle_remove_absent_id_noop (st : todosSlice.State) (p : string) :
  p ∉ todosSlice.ids (todosSlice.items st) →
  p ∉ todosSlice.ids (todosSlice.doneItems st) →
  todosSlice.reducer st (todosSlice.toggleTodo p) = st
  ∧ todosSlice.reducer st (todosSlice.removeTodo p) = st.
Proof.
  intros Hi Hd. split.
  - by apply toggleTodo_not_in_items.
  - by apply removeTodo_absent.
Qed.

Lemma toggle_remove_absent_id_noop_witness :
  let st := {| todosSlice.items := [todosSlice.prepare "Walk" "b" 0];
               todosSlice.doneItems := [] |} in
  ("z" ∉ todosSlice.ids (todosSlice.items st))
  ∧ ("z" ∉ todosSlice.ids (todosSlice.doneItems st))
  ∧ todosSlice.reducer st (todosSlice.toggleTodo "z") = st
  ∧ todosSlice.reducer st (todosSlice.removeTodo "z") = st.
Proof.
  intros st.
  assert (H1 : "z" ∉ todosSlice.ids (todosSlice.items st)).
  { apply (bool_decide_unpack _). vm_compute. reflexivity. }
  assert (H2 : "z" ∉ todosSlice.ids (todosSlice.doneItems st)).
  { apply (bool_decide_unpack _). vm_compute. reflexivity. }
  split; [exact H1|]. split; [exact H2|].
  exact (toggle_remove_absent_id_noop st "z" H1 H2).
Defined.

(** C7: [clearTodos] empties both lists, whatever they held. *)
Theorem clearTodos_empties_both_lists (st : todosSlice.State) :
  todosSlice.items (todosSlice.reducer st todosSlice.clearTodos) = []
  ∧ todosSlice.doneItems (todosSlice.reducer st todosSlice.clearTodos) = [].
Proof. split; reflexivity. Qed.

(** ** The store *)

(** C9: an action of one slice leaves the other two partitions of the
    store as they were. *)
Theorem partitions_independent (s : store.State) (action : store.Action) :
  match action with
  | store.UI _ =>
      store.counter (store.dispatch s action) = store.counter s
      ∧ store.todos (store.dispatch s action) = store.todos s
  | store.Counter _ =>
      store.ui (store.dispatch s action) = store.ui s
      ∧ store.todos (store.dispatch s action) = store.todos s
  | store.Todos _ =>
      store.ui (store.dispatch s action) = store.ui s
      ∧ store.counter (store.dispatch s action) = store.counter s
  end.
Proof. destruct action; split; reflexivity. Qed.

(** ** Todos: invariants of the reachable states *)

Section TodoInvariants.
Import todosSlice.

Implicit Types (st : State) (c : Call) (h : list string).

Lemma Forall_filter_keep {A} (P Q : A → Prop) `{∀ x, Decision (Q x)} (l : list A) :
  Forall P l → Forall P (filter Q l).
Proof.
  rewrite !Forall_forall. intros Hl x [_ Hx]%list_elem_of_filter. by apply Hl.
Qed.

Lemma flags_ok_init : flags_ok initialState.
Proof. split; constructor. Qed.

Lemma flags_ok_found st p i t :
  flags_ok st →
  list_find (λ x, id x = p) (items st) = Some (i, t) →
  done t = false.
Proof.
  intros [Hi _] (_ & _ & Hin)%find_Some_inv.
  rewrite Forall_forall in Hi. by apply Hi.
Qed.

Lemma step_flags_ok st c : flags_ok st → flags_ok (step st c).
Proof.
  intros Hok. pose proof Hok as [Hi Hd].
  destruct c as [ti n now|p|p|]; unfold step; cbn [action_of reducer
    addTodo toggleTodo removeTodo clearTodos].
  - split; cbn; [constructor|]; done.
  - destruct (list_find (λ x, id x = p) (items st)) as [[i t]|] eqn:Hfind.
    + rewrite (toggleTodo_found_active st p i t Hfind)
        by (by eapply flags_ok_found).
      split; cbn [items doneItems].
      * by apply Forall_filter_keep.
      * apply Forall_app. split; [done|]. by repeat constructor.
    + unfold reducers.toggleTodo. by rewrite Hfind.
  - split; cbn; by apply Forall_filter_keep.
  - apply flags_ok_init.
Qed.

Lemma run_flags_ok calls st : flags_ok st → flags_ok (run calls st).
Proof.
  revert st. induction calls as [|c calls IH]; intros st Hok; [done|].
  apply IH. by apply step_flags_ok.
Qed.

Lemma ids_ok_init : ids_ok [] initialState.
Proof. split; [constructor|]. intros x Hx. inversion Hx. Qed.

Lemma all_ids_removeTodo st p :
  all_ids (reducers.removeTodo st p) = filter (λ y, y ≠ p) (all_ids st).
Proof.
  unfold all_ids, reducers.removeTodo. cbn [items doneItems].
  by rewrite !ids_filter, filter_app.
Qed.

Lemma step_ids_ok h st c :
  flags_ok st → ids_ok h st →
  (∀ x, x ∈ nanoid_results [c] → x ∉ h) →
  ids_ok (h ++ nanoid_results [c]) (step st c).
Proof.
  intros Hflags [Hnd Hsub] Hfresh.
  destruct c as [ti n now|p|p|]; unfold step; cbn [action_of reducer
    addTodo toggleTodo removeTodo clearTodos nanoid_results].
  - split.
    + unfold all_ids. cbn. apply NoDup_cons. split; [|done].
      intros Hn. apply (Hfresh n); [apply list_elem_of_here|]. by apply Hsub.
    + unfold all_ids. cbn. intros x [->|Hx]%elem_of_cons.
      * apply elem_of_app. right. apply list_elem_of_here.
      * apply elem_of_app. left. by apply Hsub.
  - rewrite app_nil_r.
    destruct (list_find (λ x, id x = p) (items st)) as [[i t]|] eqn:Hfind.
    + rewrite (toggleTodo_found_active st p i t Hfind)
        by (by eapply flags_ok_found).
      destruct (find_Some_inv p _ i t Hfind) as (_ & Hid & Hin).
      assert (Hp : p ∈ ids (items st)) by (apply elem_of_ids; eauto).
      unfold ids_ok, all_ids in *. cbn [items doneItems].
      rewrite ids_filter, ids_app. cbn [ids fmap list_fmap]. rewrite id_set_done, Hid.
      apply NoDup_app in Hnd as (Hnd1 & Hdisj & Hnd2).
      split.
      * apply NoDup_app. split_and!.
        -- by apply NoDup_filter.
        -- intros x [Hxp Hx]%list_elem_of_filter [Hxd|Hxl]%elem_of_app.
           ++ by apply (Hdisj x).
           ++ apply list_elem_of_singleton in Hxl. done.
        -- apply NoDup_app. split_and!; [done| |apply NoDup_singleton].
           intros x Hx ->%list_elem_of_singleton. by apply (Hdisj p).
      * intros x [[_ Hx]%list_elem_of_filter|[Hx| ->%list_elem_of_singleton
          ]%elem_of_app]%elem_of_app;
          apply Hsub, elem_of_app; auto.
    + unfold reducers.toggleTodo. rewrite Hfind. done.
  - unfold ids_ok. rewrite app_nil_r, all_ids_removeTodo. split.
    + by apply NoDup_filter.
    + intros x [_ Hx]%list_elem_of_filter. by apply Hsub.
  - rewrite app_nil_r. split; [constructor|]. intros x Hx. inversion Hx.
Qed.

Lemma nanoid_results_cons c calls :
  nanoid_results (c :: calls) = nanoid_results [c] ++ nanoid_results calls.
Proof. destruct c; reflexivity. Qed.

Lemma run_ids_ok calls : ∀ h st,
  flags_ok st → ids_ok h st →
  NoDup (h ++ nanoid_results calls) →
  ids_ok (h ++ nanoid_results calls) (run calls st).
Proof.
  induction calls as [|c calls IH]; intros h st Hflags Hids Hnd.
  - cbn. by rewrite app_nil_r.
  - rewrite nanoid_results_cons, app_assoc in Hnd |- *.
    cbn [run foldl]. apply IH; [by apply step_flags_ok| |done].
    apply step_ids_ok; [done..|].
    intros x Hx Hh.
    apply NoDup_app in Hnd as (Hnd & _ & _).
    apply NoDup_app in Hnd as (_ & Hdisj & _). by apply (Hdisj x).
Qed.

End TodoInvariants.

(** C2: in every state reached from the initial state by add, toggle,
    remove and clear calls, no id is repeated inside [items] or inside
    [doneItems], and no id is in both.  The ids come from [nanoid()],
    whose results over the run are pairwise distinct. *)
Theorem reachable_ids_unique (calls : list todosSlice.Call) :
  todosSlice.nanoid_collision_free calls →
  let st := todosSlice.run calls todosSlice.initialState in
  NoDup (todosSlice.ids (todosSlice.items st))
  ∧ NoDup (todosSlice.ids (todosSlice.doneItems st))
  ∧ (∀ x, x ∈ todosSlice.ids (todosSlice.items st) →
          x ∉ todosSlice.ids (todosSlice.doneItems st)).
Proof.
  intros Hnd st.
  destruct (run_ids_ok calls [] todosSlice.initialState
              flags_ok_init ids_ok_init Hnd) as [H _].
  apply NoDup_app in H as (H1 & H2 & H3). done.
Qed.

Lemma reachable_ids_unique_witness :
  let calls := [todosSlice.CallAdd "Buy milk" "a" 0;
                todosSlice.CallAdd "Walk" "b" 1;
                todosSlice.CallToggle "a";
                todosSlice.CallAdd "Read" "c" 2;
                todosSlice.CallRemove "b";
                todosSlice.CallToggle "a"] in
  todosSlice.nanoid_collision_free calls
  ∧ NoDup (todosSlice.ids (todosSlice.items
                             (todosSlice.run calls todosSlice.initialState))).
Proof.
  intros calls.
  assert (H : todosSlice.nanoid_collision_free calls).
  { unfold todosSlice.nanoid_collision_free.
    apply (bool_decide_unpack _). vm_compute. reflexivity. }
  split; [exact H|].
  exact (proj1 (reachable_ids_unique calls H)).
Defined.

(** C10: in every state reached from the initial state by add, toggle,
    remove and clear calls, the todos of [items] have [done = false] and
    those of [doneItems] have [done = true]; so [toggleTodo] never takes,
    from such a state, the branch that moves the found todo back to the
    front of [items]. *)
Theorem reachable_flags_partition (calls : list todosSlice.Call) :
  let st := todosSlice.run calls todosSlice.initialState in
  Forall (λ t, todosSlice.done t = false) (todosSlice.items st)
  ∧ Forall (λ t, todosSlice.done t = true) (todosSlice.doneItems st)
  ∧ ∀ p, todosSlice.reducers.toggleTodo_branch st p ≠ todosSlice.MoveBack.
Proof.
  intros st.
  pose proof (run_flags_ok calls todosSlice.initialState flags_ok_init) as Hok.
  fold st in Hok. destruct Hok as [Hi Hd]. split_and!; [done..|].
  intros p. unfold todosSlice.reducers.toggleTodo_branch.
  destruct (list_find _ (todosSlice.items st)) as [[i t]|] eqn:Hfind; [|done].
  rewrite (flags_ok_found st p i t (conj Hi Hd) Hfind). done.
Qed.

(** C3: for every state the store reaches from the initial state and
    every id present in [items], [toggleTodo] with that id sets the done
    flag of that todo to true, appends it at the end of [doneItems] and
    removes the id from [items]; the other items keep their order. *)
Theorem toggleTodo_active_id_moves_to_done
    (calls : list todosSlice.Call) (p : string) :
  p ∈ todosSlice.ids
        (todosSlice.items (todosSlice.run calls todosSlice.initialState)) →
  let st := todosSlice.run calls todosSlice.initialState in
  let st' := todosSlice.reducer st (todosSlice.toggleTodo p) in
  todosSlice.moved_to_done st p st'
  ∧ ∃ t, t ∈ todosSlice.items st
         ∧ todosSlice.id t = p
         ∧ todosSlice.first_with_id p (todosSlice.items st) = Some t
         ∧ todosSlice.done (todosSlice.set_done true t) = true
         ∧ todosSlice.doneItems st'
           = todosSlice.doneItems st ++ [todosSlice.set_done true t]
         ∧ last (todosSlice.doneItems st') = Some (todosSlice.set_done true t)
         ∧ (p ∉ todosSlice.ids (todosSlice.items st'))
         ∧ todosSlice.items st'
           = filter (λ x, todosSlice.id x ≠ p) (todosSlice.items st).
Proof.
  intros Hp st st'.
  pose proof (run_flags_ok calls todosSlice.initialState flags_ok_init) as Hok.
  fold st in Hok, Hp.
  destruct (find_present p (todosSlice.items st) Hp) as (i & t & Hfind).
  destruct (find_Some_inv p _ i t Hfind) as (_ & Hid & Hin).
  assert (Hd : todosSlice.done t = false) by (by eapply flags_ok_found).
  assert (Hst' : st' = {| todosSlice.items :=
                            filter (λ x, todosSlice.id x ≠ p) (todosSlice.items st);
                          todosSlice.doneItems :=
                            todosSlice.doneItems st ++ [todosSlice.set_done true t] |})
    by (by apply (toggleTodo_found_active st p i t)).
  assert (Hgone : p ∉ todosSlice.ids (todosSlice.items st')).
  { rewrite Hst'. cbn [todosSlice.items]. rewrite ids_filter.
    intros [Hne _]%list_elem_of_filter. by apply Hne. }
  assert (Hdone : todosSlice.doneItems st'
                  = todosSlice.doneItems st ++ [todosSlice.set_done true t])
    by (by rewrite Hst').
  split.
  - exists t. done.
  - exists t. split_and!; try done.
    + unfold todosSlice.first_with_id. by rewrite Hfind.
    + by rewrite Hdone, last_snoc.
    + by rewrite Hst'.
Qed.

Lemma toggleTodo_active_id_moves_to_done_witness :
  let calls := [todosSlice.CallAdd "Buy milk" "a" 0;
                todosSlice.CallAdd "Walk" "b" 1;
                todosSlice.CallToggle "a"] in
  let st := todosSlice.run calls todosSlice.initialState in
  "b" ∈ todosSlice.ids (todosSlice.items st)
  ∧ todosSlice.moved_to_done st "b"
      (todosSlice.reducer st (todosSlice.toggleTodo "b")).
Proof.
  intros calls st.
  assert (H : "b" ∈ todosSlice.ids
                      (todosSlice.items
                         (todosSlice.run calls todosSlice.initialState)))
    by apply list_elem_of_here.
  split; [exact H|].
  exact (proj1 (toggleTodo_active_id_moves_to_done calls "b" H)).
Defined.

(** The branch excluded by C10, on a state that no run reaches: the found
    todo is put in front of [items] while its old position keeps it. *)
Example toggleTodo_move_back_duplicates :
  let t := {| todosSlice.id := "a"; todosSlice.title := "Buy milk";
              todosSlice.done := true; todosSlice.createdAt := 0 |} in
  let st := {| todosSlice.items := [t]; todosSlice.doneItems := [t] |} in
  todosSlice.reducers.toggleTodo_branch st "a" = todosSlice.MoveBack
  ∧ todosSlice.reducers.toggleTodo st "a"
    = {| todosSlice.items := [todosSlice.set_done false t; todosSlice.set_done false t];
         todosSlice.doneItems := [] |}.
Proof. split; reflexivity. Qed.

(** * Further properties of the slices, the store and the components *)

(** ** UI slice over a sequence of actions *)

Lemma ui_run_cons a actions s :
  uiSlice.run (a :: actions) s = uiSlice.run actions (uiSlice.reducer s a).
Proof. reflexivity. Qed.

Lemma ui_run_darkMode actions s :
  uiSlice.darkMode (uiSlice.run actions s)
  = xorb (uiSlice.darkMode s) (Nat.odd (uiSlice.count_toggles actions)).
Proof.
  revert s. induction actions as [|a rest IH]; intros s.
  - cbn. by rewrite xorb_false_r.
  - rewrite ui_run_cons, IH. destruct a; cbn [uiSlice.count_toggles].
    + rewrite Nat.odd_succ, <- Nat.negb_odd. cbn.
      destruct (uiSlice.darkMode s), (Nat.odd (uiSlice.count_toggles rest)); reflexivity.
    + reflexivity.
Qed.

Lemma ui_run_showBanner actions s :
  uiSlice.showBanner (uiSlice.run actions s)
  = uiSlice.showBanner s && negb (uiSlice.has_dismiss actions).
Proof.
  revert s. induction actions as [|a rest IH]; intros s.
  - cbn. by rewrite andb_true_r.
  - rewrite ui_run_cons, IH. destruct a; cbn.
    + reflexivity.
    + by rewrite andb_false_r.
Qed.

(** ** Counter slice over a sequence of actions *)

Lemma counter_state_eq (s1 s2 : counterSlice.State) :
  counterSlice.value s1 = counterSlice.value s2 → s1 = s2.
Proof. destruct s1, s2; cbn; congruence. Qed.

Lemma counter_run_app xs ys s :
  counterSlice.run (xs ++ ys) s = counterSlice.run ys (counterSlice.run xs s).
Proof. apply foldl_app. Qed.





(** X3: a [reset] erases what came before it: the state after a sequence
    that holds a [reset] is the state reached from the initial state by
    the actions after that [reset], whatever the starting state and the
    earlier actions were. *)
Theorem counter_reset_forgets_history
    (before after : list counterSlice.Action) (s : counterSlice.State) :
  counterSlice.run (before ++ counterSlice.A_reset :: after) s
  = counterSlice.run after counterSlice.initialState.
Proof. rewrite counter_run_app, counter_run_cons. reflexivity. Qed.

(** ** The store over a sequence of actions *)

Lemma store_run_cons a actions s :
  store.run (a :: actions) s = store.run actions (store.dispatch s a).
Proof. reflexivity. Qed.

Lemma store_run_ui actions s :
  store.ui (store.run actions s) = uiSlice.run (store.ui_actions actions) (store.ui s).
Proof.
  revert s. induction actions as [|a rest IH]; intros s; [reflexivity|].
  rewrite store_run_cons, IH. by destruct a.
Qed.

Lemma store_run_counter actions s :
  store.counter (store.run actions s)
  = counterSlice.run (store.counter_actions actions) (store.counter s).
Proof.
  revert s. induction actions as [|a rest IH]; intros s; [reflexivity|].
  rewrite store_run_cons, IH. by destruct a.
Qed.

Lemma store_run_todos actions s :
  store.todos (store.run actions s)
  = foldl todosSlice.reducer (store.todos s) (store.todos_actions actions).
Proof.
  revert s. induction actions as [|a rest IH]; intros s; [reflexivity|].
  rewrite store_run_cons, IH. by destruct a.
Qed.

(** X4: after any sequence of dispatched actions each partition of the
    store is what its own slice reducer makes of the actions of its own
    slice, taken in order: the actions of the other slices can be left
    out. *)
Theorem store_run_projects_on_slices
    (actions : list store.Action) (s : store.State) :
  store.ui (store.run actions s)
  = uiSlice.run (store.ui_actions actions) (store.ui s)
  ∧ store.counter (store.run actions s)
    = counterSlice.run (store.counter_actions actions) (store.counter s)
  ∧ store.todos (store.run actions s)
    = foldl todosSlice.reducer (store.todos s) (store.todos_actions actions).
Proof.
  split_and!; [apply store_run_ui|apply store_run_counter|apply store_run_todos].
Qed.

(** X5: two actions of different slices can be dispatched in either
    order. *)
Theorem dispatch_commutes_across_slices (a b : store.Action) (s : store.State) :
  store.slice_name a ≠ store.slice_name b →
  store.dispatch (store.dispatch s a) b = store.dispatch (store.dispatch s b) a.
Proof.
  intros Hne. destruct a, b; try reflexivity; by destruct Hne.
Qed.

Lemma dispatch_commutes_across_slices_witness :
  let a := store.Counter (counterSlice.A_addByAmount (JsNumber.of_Z 3)) in
  let b := store.Todos (todosSlice.addTodo "Buy milk" "a" 0) in
  store.slice_name a ≠ store.slice_name b
  ∧ store.dispatch (store.dispatch store.initialState a) b
    = store.dispatch (store.dispatch store.initialState b) a.
Proof.
  intros a b.
  assert (H : store.slice_name a ≠ store.slice_name b) by discriminate.
  split; [exact H|].
  exact (dispatch_commutes_across_slices a b store.initialState H).
Defined.

(** X6: the theme of [ThemedApp] after any sequence of dispatched
    actions from the initial store is the dark one exactly when the
    number of [toggleDarkMode] actions in it is odd; the actions of the
    counter and of the todos have no part in it. *)
Theorem theme_follows_toggle_parity (actions : list store.Action) :
  ThemedApp.theme (store.run actions store.initialState)
  = if Nat.odd (uiSlice.count_toggles (store.ui_actions actions))
    then ThemedApp.MD3DarkTheme else ThemedApp.MD3LightTheme.
Proof.
  unfold ThemedApp.theme. rewrite store_run_ui, ui_run_darkMode. reflexivity.
Qed.

(** X1: after any sequence of dispatched actions the banner of
    [AppScaffold] is rendered exactly when it was rendered before and no
    [dismissBanner] was among the actions; in particular, once its button
    was pressed no later action brings the banner back. *)
Theorem dismissed_banner_never_returns
    (actions : list store.Action) (s : store.State) :
  AppScaffold.banner_rendered (store.run actions s)
  = AppScaffold.banner_rendered s
    && negb (uiSlice.has_dismiss (store.ui_actions actions))
  ∧ AppScaffold.banner_rendered (store.run actions (AppScaffold.pressGotIt s))
    = false.
Proof.
  unfold AppScaffold.banner_rendered. rewrite !store_run_ui, !ui_run_showBanner.
  split; reflexivity.
Qed.

(** ** CounterCard *)

Lemma amount_integer a :
  CounterCard.amount (JsNumber.integer a) = JsNumber.integer a.
Proof.
  unfold CounterCard.amount, JsNumber.integer, JsNumber.truthy.
  destruct (Z.eqb_spec (a * JsNumber.scale) 0) as [->|_]; reflexivity.
Qed.

Lemma add_integer_zero v :
  JsNumber.safe v →
  JsNumber.add (JsNumber.integer v) (JsNumber.Fin 0) = JsNumber.integer v.
Proof.
  intros Hv. change (JsNumber.Fin 0) with (JsNumber.integer 0).
  rewrite add_integer; rewrite Z.add_0_r; done.
Qed.

Lemma add_NegZero x : JsNumber.add x JsNumber.NegZero = x.
Proof. by destruct x. Qed.

Lemma cancel_numbers v a :
  JsNumber.safe v → JsNumber.safe (v + a) → JsNumber.safe (v - a) →
  JsNumber.add (JsNumber.add (JsNumber.integer v) (CounterCard.amount (JsNumber.integer a)))
    (JsNumber.neg (CounterCard.amount (JsNumber.integer a)))
  = JsNumber.integer v
  ∧ JsNumber.add
      (JsNumber.add (JsNumber.integer v)
         (JsNumber.neg (CounterCard.amount (JsNumber.integer a))))
      (CounterCard.amount (JsNumber.integer a))
    = JsNumber.integer v.
Proof.
  intros Hv Hplus Hminus. rewrite amount_integer.
  destruct (decide (a = 0)) as [->|Ha].
  - change (JsNumber.integer 0) with (JsNumber.Fin 0).
    change (JsNumber.neg (JsNumber.Fin 0)) with JsNumber.NegZero.
    by rewrite !add_NegZero, !add_integer_zero.
  - rewrite neg_integer by done. split.
    + rewrite add_integer by done. rewrite add_integer.
      * f_equal. lia.
      * by replace (v + a + - a) with v by lia.
    + rewrite add_integer by (by rewrite Z.add_opp_r). rewrite add_integer.
      * f_equal. lia.
      * by replace (v + - a + a) with v by lia.
Qed.

Lemma bump_value h d u x t :
  CounterCard.bump h d
    {| store.ui := u; store.counter := {| counterSlice.value := x |};
       store.todos := t |}
  = {| store.ui := u;
       store.counter := {| counterSlice.value := if h then JsNumber.add x d else x |};
       store.todos := t |}.
Proof. by destruct h. Qed.

(** X7: when the counter holds an integer and the integer typed in the
    amount field, their sum and their difference are at most 2^53 in
    magnitude, Add followed by Subtract (or Subtract followed by Add)
    gives the store back; and when [Number] makes NaN or a zero of the
    text, both buttons leave such a store as it is. *)
Theorem add_subtract_cancel (v a : Z) (h : bool) (s : store.State) :
  counterSlice.value (store.counter s) = JsNumber.integer v →
  JsNumber.safe v → JsNumber.safe (v + a) → JsNumber.safe (v - a) →
  CounterCard.pressSubtract true (JsNumber.integer a)
    (CounterCard.pressAdd true (JsNumber.integer a) s) = s
  ∧ CounterCard.pressAdd true (JsNumber.integer a)
      (CounterCard.pressSubtract true (JsNumber.integer a) s) = s
  ∧ CounterCard.pressAdd h JsNumber.NaN s = s
  ∧ CounterCard.pressSubtract h JsNumber.NaN s = s
  ∧ CounterCard.pressAdd h (JsNumber.Fin 0) s = s
  ∧ CounterCard.pressSubtract h (JsNumber.Fin 0) s = s
  ∧ CounterCard.pressAdd h JsNumber.NegZero s = s
  ∧ CounterCard.pressSubtract h JsNumber.NegZero s = s.
Proof.
  destruct s as [u [x] t]. cbn [store.counter counterSlice.value].
  intros -> Hv Hplus Hminus.
  destruct (cancel_numbers v a Hv Hplus Hminus) as [H1 H2].
  unfold CounterCard.pressAdd, CounterCard.pressSubtract.
  rewrite !bump_value, H1, H2.
  change (CounterCard.amount JsNumber.NaN) with (JsNumber.Fin 0).
  change (CounterCard.amount (JsNumber.Fin 0)) with (JsNumber.Fin 0).
  change (CounterCard.amount JsNumber.NegZero) with (JsNumber.Fin 0).
  change (JsNumber.neg (JsNumber.Fin 0)) with JsNumber.NegZero.
  rewrite add_NegZero, add_integer_zero by done.
  split_and!; by destruct h.
Qed.

Lemma add_subtract_cancel_witness :
  let s := {| store.ui := uiSlice.initialState;
              store.counter := {| counterSlice.value := JsNumber.integer 7 |};
              store.todos := todosSlice.initialState |} in
  counterSlice.value (store.counter s) = JsNumber.integer 7
  ∧ JsNumber.safe 7 ∧ JsNumber.safe (7 + 5) ∧ JsNumber.safe (7 - 5)
  ∧ CounterCard.pressSubtract true (JsNumber.integer 5)
      (CounterCard.pressAdd true (JsNumber.integer 5) s) = s.
Proof.
  intros s.
  assert (H0 : counterSlice.value (store.counter s) = JsNumber.integer 7)
    by reflexivity.
  assert (H1 : JsNumber.safe 7) by (apply safeb_spec; vm_compute; reflexivity).
  assert (H2 : JsNumber.safe (7 + 5)) by (apply safeb_spec; vm_compute; reflexivity).
  assert (H3 : JsNumber.safe (7 - 5)) by (apply safeb_spec; vm_compute; reflexivity).
  split; [exact H0|]. split; [exact H1|]. split; [exact H2|]. split; [exact H3|].
  exact (proj1 (add_subtract_cancel 7 5 true s H0 H1 H2 H3)).
Defined.

(** ** Todos: more on the case reducers *)

Section TodoReducersMore.
Import todosSlice.

Implicit Types (st : State) (p : string) (t : Todo) (l : list Todo).

Lemma ids_insert_found p l i t v :
  list_find (λ x, id x = p) l = Some (i, t) →
  ids (<[i := set_done v t]> l) = ids l.
Proof.
  intros (Hi & _ & _)%find_Some_inv. unfold ids.
  rewrite list_fmap_insert. apply list_insert_id.
  by rewrite list_lookup_fmap, Hi.
Qed.

Lemma elem_of_ids_filter p l x :
  x ∈ ids (filter (λ y, id y ≠ p) l) ↔ x ≠ p ∧ x ∈ ids l.
Proof. by rewrite ids_filter, list_elem_of_filter. Qed.

Lemma toggleTodo_same_ids st p x :
  x ∈ all_ids (reducers.toggleTodo st p) ↔ x ∈ all_ids st.
Proof.
  pose proof (toggleTodo_branch_spec st p) as H.
  destruct (reducers.toggleTodo_branch st p).
  - destruct H as [_ ->]. done.
  - destruct H as (t & Hfirst & _ & ->). unfold first_with_id in Hfirst.
    destruct (list_find _ (items st)) as [[i t0]|] eqn:Hfind; [|discriminate].
    cbn in Hfirst. injection Hfirst as ->.
    destruct (find_Some_inv p _ i t Hfind) as (_ & Hid & Hin).
    assert (Hp : p ∈ ids (items st)) by (apply elem_of_ids; eauto).
    unfold all_ids. cbn [items doneItems].
    rewrite ids_app. cbn [ids fmap list_fmap]. rewrite id_set_done, Hid.
    rewrite !elem_of_app, elem_of_ids_filter, list_elem_of_singleton.
    destruct (decide (x = p)) as [->|]; intuition congruence.
  - destruct H as (i & t & Hfind & _ & ->).
    destruct (find_Some_inv p _ i t Hfind) as (_ & Hid & Hin).
    assert (Hp : p ∈ ids (items st)) by (apply elem_of_ids; eauto).
    unfold all_ids. cbn [items doneItems].
    change (ids (set_done false t :: ?l)) with (id (set_done false t) :: ids l).
    rewrite (ids_insert_found p _ i t false Hfind), id_set_done, Hid.
    rewrite elem_of_app, elem_of_cons, elem_of_app, elem_of_ids_filter.
    destruct (decide (x = p)) as [->|]; intuition congruence.
Qed.

Lemma filter_filter_same p l :
  filter (λ x, id x ≠ p) (filter (λ x, id x ≠ p) l) = filter (λ x, id x ≠ p) l.
Proof.
  apply filter_absent. intros [Hne _]%elem_of_ids_filter. by apply Hne.
Qed.

End TodoReducersMore.

(** X8: for every state, [removeTodo] leaves no todo with the id in
    either list, keeps every other todo of each list in its order, and
    a second [removeTodo] of the same id changes nothing more. *)
Theorem removeTodo_removes_exactly_the_id (st : todosSlice.State) (p : string) :
  let st' := todosSlice.reducer st (todosSlice.removeTodo p) in
  (p ∉ todosSlice.all_ids st')
  ∧ (∀ t, t ∈ todosSlice.items st' ↔ t ∈ todosSlice.items st ∧ todosSlice.id t ≠ p)
  ∧ (∀ t, t ∈ todosSlice.doneItems st'
          ↔ t ∈ todosSlice.doneItems st ∧ todosSlice.id t ≠ p)
  ∧ todosSlice.items st' `sublist_of` todosSlice.items st
  ∧ todosSlice.doneItems st' `sublist_of` todosSlice.doneItems st
  ∧ todosSlice.reducer st' (todosSlice.removeTodo p) = st'.
Proof.
  cbv zeta. cbn [todosSlice.reducer todosSlice.removeTodo].
  unfold todosSlice.reducers.removeTodo, todosSlice.all_ids.
  cbn [todosSlice.items todosSlice.doneItems].
  split_and!.
  - rewrite elem_of_app, !elem_of_ids_filter. intuition congruence.
  - intros t. rewrite list_elem_of_filter. intuition congruence.
  - intros t. rewrite list_elem_of_filter. intuition congruence.
  - apply sublist_filter.
  - apply sublist_filter.
  - by rewrite !filter_filter_same.
Qed.

(** X9: adding a todo under an id that no todo of the state carries and
    removing that id again gives the state back. *)
Theorem add_then_remove_restores
    (st : todosSlice.State) (title n : string) (now : Z) :
  n ∉ todosSlice.all_ids st →
  todosSlice.reducer (todosSlice.reducer st (todosSlice.addTodo title n now))
    (todosSlice.removeTodo n) = st.
Proof.
  intros Hn. apply not_elem_of_app in Hn as [Hi Hd].
  cbn [todosSlice.reducer todosSlice.addTodo todosSlice.removeTodo].
  unfold todosSlice.reducers.removeTodo, todosSlice.reducers.addTodo.
  cbn [todosSlice.items todosSlice.doneItems].
  rewrite filter_cons_False by (intros H; by apply H).
  rewrite !filter_absent by done. by destruct st.
Qed.

Lemma add_then_remove_restores_witness :
  let st := {| todosSlice.items := [todosSlice.prepare "Walk" "b" 0];
               todosSlice.doneItems :=
                 [todosSlice.set_done true (todosSlice.prepare "Read" "c" 1)] |} in
  ("a" ∉ todosSlice.all_ids st)
  ∧ todosSlice.reducer
      (todosSlice.reducer st (todosSlice.addTodo "Buy milk" "a" 2))
      (todosSlice.removeTodo "a") = st.
Proof.
  intros st.
  assert (H : "a" ∉ todosSlice.all_ids st).
  { apply (bool_decide_unpack _). vm_compute. reflexivity. }
  split; [exact H|].
  exact (add_then_remove_restores st "Buy milk" "a" 2 H).
Defined.

(** X10: adding a todo under an id that no active todo carries and
    toggling that id moves the new todo, flagged done, to the end of
    [doneItems] and leaves [items] as it was before the addition. *)
Theorem add_then_toggle_completes
    (st : todosSlice.State) (title n : string) (now : Z) :
  n ∉ todosSlice.ids (todosSlice.items st) →
  todosSlice.reducer (todosSlice.reducer st (todosSlice.addTodo title n now))
    (todosSlice.toggleTodo n)
  = {| todosSlice.items := todosSlice.items st;
       todosSlice.doneItems :=
         todosSlice.doneItems st
         ++ [todosSlice.set_done true (todosSlice.prepare title n now)] |}.
Proof.
  intros Hn.
  cbn [todosSlice.reducer todosSlice.addTodo todosSlice.toggleTodo].
  rewrite (toggleTodo_found_active _ n 0%nat (todosSlice.prepare title n now)).
  - cbn [todosSlice.reducers.addTodo todosSlice.items todosSlice.doneItems].
    rewrite filter_cons_False by (intros H; by apply H).
    by rewrite filter_absent.
  - cbn. rewrite decide_True by reflexivity. reflexivity.
  - reflexivity.
Qed.

Lemma add_then_toggle_completes_witness :
  let st := {| todosSlice.items := [todosSlice.prepare "Walk" "b" 0];
               todosSlice.doneItems :=
                 [todosSlice.set_done true (todosSlice.prepare "Read" "c" 1)] |} in
  ("a" ∉ todosSlice.ids (todosSlice.items st))
  ∧ todosSlice.items
      (todosSlice.reducer
         (todosSlice.reducer st (todosSlice.addTodo "Buy milk" "a" 2))
         (todosSlice.toggleTodo "a"))
    = todosSlice.items st.
Proof.
  intros st.
  assert (H : "a" ∉ todosSlice.ids (todosSlice.items st)).
  { apply (bool_decide_unpack _). vm_compute. reflexivity. }
  split; [exact H|].
  by rewrite (add_then_toggle_completes st "Buy milk" "a" 2 H).
Defined.

(** X11: for every state and every id, [toggleTodo] neither drops nor
    invents an id: the ids found in [items] or [doneItems] afterwards are
    those found there before. *)
Theorem toggleTodo_keeps_the_ids (st : todosSlice.State) (p x : string) :
  x ∈ todosSlice.all_ids (todosSlice.reducer st (todosSlice.toggleTodo p))
  ↔ x ∈ todosSlice.all_ids st.
Proof. apply toggleTodo_same_ids. Qed.

(** ** Todos: more on the reachable states *)

Section TodoReachableMore.
Import todosSlice.

Implicit Types (st : State) (c : Call) (p : string) (t : Todo).

Lemma nanoid_results_app l1 l2 :
  nanoid_results (l1 ++ l2) = nanoid_results l1 ++ nanoid_results l2.
Proof.
  induction l1 as [|c l1 IH]; [reflexivity|].
  destruct c; cbn; by rewrite IH.
Qed.

Lemma run_snoc calls c st : run (calls ++ [c]) st = step (run calls st) c.
Proof. unfold run. by rewrite foldl_app. Qed.

Lemma reachable_flags_ok calls : flags_ok (run calls initialState).
Proof. apply run_flags_ok, flags_ok_init. Qed.

Lemma reachable_ids_ok calls :
  nanoid_collision_free calls →
  ids_ok (nanoid_results calls) (run calls initialState).
Proof.
  intros Hnd.
  apply (run_ids_ok calls [] initialState flags_ok_init ids_ok_init Hnd).
Qed.

Lemma reachable_done_not_active calls t :
  nanoid_collision_free calls →
  t ∈ doneItems (run calls initialState) →
  id t ∉ ids (items (run calls initialState)).
Proof.
  intros Hnd Ht.
  destruct (reachable_ids_ok calls Hnd) as [Hno _].
  apply NoDup_app in Hno as (_ & Hdisj & _).
  intros Hin. apply (Hdisj _ Hin). apply elem_of_ids. eauto.
Qed.

Lemma NoDup_ids_inj (l : list Todo) t1 t2 :
  NoDup (ids l) → t1 ∈ l → t2 ∈ l → id t1 = id t2 → t1 = t2.
Proof.
  induction l as [|x l IH]; [by intros _ ?%elem_of_nil|].
  cbn [ids fmap list_fmap]. rewrite NoDup_cons, !elem_of_cons.
  intros [Hx Hno] [->|H1] [->|H2] Heq; try done.
  - exfalso. apply Hx. rewrite Heq. apply elem_of_ids. eauto.
  - exfalso. apply Hx. rewrite <- Heq. apply elem_of_ids. eauto.
  - by apply IH.
Qed.

Lemma toggle_step_from_flags_ok st p :
  flags_ok st →
  step st (CallToggle p) = st
  ∨ ∃ t, t ∈ items st ∧ id t = p ∧ done t = false
         ∧ step st (CallToggle p)
           = {| items := filter (λ x, id x ≠ p) (items st);
                doneItems := doneItems st ++ [set_done true t] |}.
Proof.
  intros Hok. unfold step. cbn [action_of reducer toggleTodo].
  destruct (list_find (λ x, id x = p) (items st)) as [[i t]|] eqn:Hfind.
  - right. exists t.
    destruct (find_Some_inv p _ i t Hfind) as (_ & Hid & Hin).
    assert (Hd : done t = false) by (by eapply flags_ok_found).
    split_and!; [done..|]. by apply (toggleTodo_found_active st p i t).
  - left. unfold reducers.toggleTodo. by rewrite Hfind.
Qed.

Lemma StronglySorted_sublist {A} (R : A → A → Prop) (l1 l2 : list A) :
  l1 `sublist_of` l2 → StronglySorted R l2 → StronglySorted R l1.
Proof.
  induction 1 as [|x l1 l2 Hsub IH|x l1 l2 Hsub IH];
    rewrite ?StronglySorted_cons; [done| |].
  - intros [Hall Hs]. split; [|by apply IH].
    rewrite Forall_forall in Hall |- *.
    intros y Hy. apply Hall. by eapply elem_of_sublist.
  - intros [_ Hs]. by apply IH.
Qed.

Lemma step_items_sublist st c :
  flags_ok st → is_add c = false → items (step st c) `sublist_of` items st.
Proof.
  intros Hok Hc. destruct c as [ti n now|p|p|]; [discriminate| | |].
  - destruct (toggle_step_from_flags_ok st p Hok) as [->|(t & _ & _ & _ & ->)];
      [done|]. apply sublist_filter.
  - apply sublist_filter.
  - apply sublist_nil_l.
Qed.

Lemma run_newest_first calls : ∀ st,
  flags_ok st →
  newest_first (items st) →
  (∀ t r, t ∈ items st → r ∈ clock_readings calls → createdAt t ≤ r) →
  StronglySorted Z.le (clock_readings calls) →
  newest_first (items (run calls st)).
Proof.
  induction calls as [|c calls IH]; intros st Hok Hsorted Hbound Hclock; [done|].
  cbn [run foldl]. apply IH.
  - by apply step_flags_ok.
  - destruct (is_add c) eqn:Hc.
    + destruct c as [ti n now| | |]; try discriminate.
      unfold step, newest_first. cbn. apply StronglySorted_cons. split; [|done].
      apply Forall_forall. intros t Ht. cbn. apply Hbound; [done|].
      cbn. apply list_elem_of_here.
    + eapply StronglySorted_sublist; [by apply step_items_sublist|done].
  - intros t r Ht Hr. destruct (is_add c) eqn:Hc.
    + destruct c as [ti n now| | |]; try discriminate.
      cbn [clock_readings] in Hclock, Hbound.
      apply StronglySorted_cons in Hclock as [Hall _].
      unfold step in Ht. cbn in Ht. apply elem_of_cons in Ht as [->|Ht].
      * cbn. rewrite Forall_forall in Hall. by apply Hall.
      * apply Hbound; [done|]. by apply list_elem_of_further.
    + apply Hbound.
      * eapply elem_of_sublist; [exact Ht|by apply step_items_sublist].
      * destruct c; try discriminate; exact Hr.
  - destruct c; cbn [clock_readings] in Hclock; try done.
    by apply StronglySorted_cons in Hclock as [_ ?].
Qed.

End TodoReachableMore.

(** X12: in a state reached from the initial state (with ids from a
    collision-free [nanoid()]), the Undo button of every card of the done
    list dispatches an action that leaves the whole store as it is. *)
Theorem undo_on_done_card_changes_nothing
    (calls : list todosSlice.Call) (s : store.State) (card : TodosCard.ItemCard) :
  todosSlice.nanoid_collision_free calls →
  store.todos s = todosSlice.run calls todosSlice.initialState →
  card ∈ TodosCard.done_cards s →
  TodosCard.toggle_label card = "Undo"
  ∧ store.dispatch s (TodosCard.onToggle card) = s.
Proof.
  intros Hnd Hs Hcard. unfold TodosCard.done_cards in Hcard.
  apply list_elem_of_fmap in Hcard as (t & -> & Ht). rewrite Hs in Ht.
  split; [reflexivity|].
  pose proof (reachable_done_not_active calls t Hnd Ht) as Hnot.
  rewrite <- Hs in Hnot.
  destruct s as [u c td]. unfold store.dispatch, store.reducer. cbn in *.
  f_equal. by apply toggleTodo_not_in_items.
Qed.

Lemma undo_on_done_card_changes_nothing_witness :
  let calls := [todosSlice.CallAdd "Buy milk" "a" 0;
                todosSlice.CallAdd "Walk" "b" 1;
                todosSlice.CallToggle "a"] in
  let s := {| store.ui := uiSlice.initialState;
              store.counter := counterSlice.initialState;
              store.todos := todosSlice.run calls todosSlice.initialState |} in
  let card := TodosCard.renderDoneItem
                (todosSlice.set_done true (todosSlice.prepare "Buy milk" "a" 0)) in
  todosSlice.nanoid_collision_free calls
  ∧ store.todos s = todosSlice.run calls todosSlice.initialState
  ∧ card ∈ TodosCard.done_cards s
  ∧ store.dispatch s (TodosCard.onToggle card) = s.
Proof.
  intros calls s card.
  assert (H1 : todosSlice.nanoid_collision_free calls).
  { unfold todosSlice.nanoid_collision_free.
    apply (bool_decide_unpack _). vm_compute. reflexivity. }
  assert (H2 : store.todos s = todosSlice.run calls todosSlice.initialState)
    by reflexivity.
  assert (H3 : card ∈ TodosCard.done_cards s) by apply list_elem_of_here.
  split; [exact H1|]. split; [exact H2|]. split; [exact H3|].
  exact (proj2 (undo_on_done_card_changes_nothing calls s card H1 H2 H3)).
Defined.

(** X13: in a state reached from the initial state (with ids from a
    collision-free [nanoid()]), every card of the active list shows the
    circle icon and the Done label (never Undo), and its button
    dispatches a toggle that moves the todo of the card, flagged done, to
    the end of [doneItems]. *)
Theorem active_card_always_offers_done
    (calls : list todosSlice.Call) (s : store.State) (card : TodosCard.ItemCard) :
  todosSlice.nanoid_collision_free calls →
  store.todos s = todosSlice.run calls todosSlice.initialState →
  card ∈ TodosCard.active_cards s →
  TodosCard.toggle_label card = "Done"
  ∧ TodosCard.icon card = "circle-outline"
  ∧ ∃ t, t ∈ todosSlice.items (store.todos s)
         ∧ card = TodosCard.renderItem t
         ∧ todosSlice.moved_to_done (store.todos s) (todosSlice.id t)
             (store.todos (store.dispatch s (TodosCard.onToggle card)))
         ∧ last (todosSlice.doneItems
                   (store.todos (store.dispatch s (TodosCard.onToggle card))))
           = Some (todosSlice.set_done true t).
Proof.
  intros Hnd Hs Hcard. unfold TodosCard.active_cards in Hcard.
  apply list_elem_of_fmap in Hcard as (t & -> & Ht).
  pose proof (reachable_flags_ok calls) as Hok. rewrite <- Hs in Hok.
  destruct (reachable_ids_ok calls Hnd) as [Hno _]. rewrite <- Hs in Hno.
  apply NoDup_app in Hno as (Hno & _ & _).
  assert (Hd : todosSlice.done t = false).
  { destruct Hok as [Hi _]. rewrite Forall_forall in Hi. by apply Hi. }
  unfold TodosCard.renderItem. cbn [TodosCard.toggle_label TodosCard.icon
    TodosCard.onToggle]. rewrite Hd. split_and!; [done..|].
  exists t. split; [done|]. split; [by rewrite Hd|].
  destruct (find_present (todosSlice.id t) (todosSlice.items (store.todos s)))
    as (i & t1 & Hfind); [apply elem_of_ids; eauto|].
  destruct (find_Some_inv _ _ i t1 Hfind) as (_ & Hid1 & Hin1).
  assert (t1 = t) as -> by (by eapply NoDup_ids_inj).
  cbn [store.dispatch store.reducer store.todos store.todos_reducer
       todosSlice.reducer todosSlice.toggleTodo].
  rewrite (toggleTodo_found_active _ _ i t Hfind Hd).
  cbn [todosSlice.items todosSlice.doneItems]. split.
  - exists t. split_and!; [done..|].
    intros [Hne _]%elem_of_ids_filter. by apply Hne.
  - by rewrite last_snoc.
Qed.

Lemma active_card_always_offers_done_witness :
  let calls := [todosSlice.CallAdd "Buy milk" "a" 0;
                todosSlice.CallAdd "Walk" "b" 1;
                todosSlice.CallToggle "a"] in
  let s := {| store.ui := uiSlice.initialState;
              store.counter := counterSlice.initialState;
              store.todos := todosSlice.run calls todosSlice.initialState |} in
  let card := TodosCard.renderItem (todosSlice.prepare "Walk" "b" 1) in
  todosSlice.nanoid_collision_free calls
  ∧ store.todos s = todosSlice.run calls todosSlice.initialState
  ∧ card ∈ TodosCard.active_cards s
  ∧ TodosCard.toggle_label card = "Done".
Proof.
  intros calls s card.
  assert (H1 : todosSlice.nanoid_collision_free calls).
  { unfold todosSlice.nanoid_collision_free.
    apply (bool_decide_unpack _). vm_compute. reflexivity. }
  assert (H2 : store.todos s = todosSlice.run calls todosSlice.initialState)
    by reflexivity.
  assert (H3 : card ∈ TodosCard.active_cards s) by apply list_elem_of_here.
  split; [exact H1|]. split; [exact H2|]. split; [exact H3|].
  exact (proj1 (active_card_always_offers_done calls s card H1 H2 H3)).
Defined.

(** X14: from a state reached from the initial state, [items] gains a
    todo only by an add and [doneItems] loses one only by a remove or a
    clear: an add leaves [doneItems] alone, a toggle keeps [doneItems] as
    the beginning of the new [doneItems] and takes the new [items] out of
    the old ones in order, and a remove or a clear only takes todos out
    of both lists. *)
Theorem done_todos_stay_done (calls : list todosSlice.Call) (c : todosSlice.Call) :
  let st := todosSlice.run calls todosSlice.initialState in
  let st' := todosSlice.step st c in
  match c with
  | todosSlice.CallAdd _ _ _ =>
      todosSlice.doneItems st' = todosSlice.doneItems st
  | todosSlice.CallToggle _ =>
      todosSlice.items st' `sublist_of` todosSlice.items st
      ∧ todosSlice.doneItems st `prefix_of` todosSlice.doneItems st'
  | todosSlice.CallRemove _ | todosSlice.CallClear =>
      todosSlice.items st' `sublist_of` todosSlice.items st
      ∧ todosSlice.doneItems st' `sublist_of` todosSlice.doneItems st
  end.
Proof.
  intros st st'. pose proof (reachable_flags_ok calls) as Hok. fold st in Hok.
  subst st'. destruct c as [ti n now|p|p|].
  - reflexivity.
  - split; [by apply step_items_sublist|].
    destruct (toggle_step_from_flags_ok st p Hok) as [->|(t & _ & _ & _ & ->)];
      [done|]. by apply prefix_app_r.
  - split; apply sublist_filter.
  - split; apply sublist_nil_l.
Qed.

(** X15: in a state reached from the initial state (with ids from a
    collision-free [nanoid()]), a toggle only moves: the ids of the two
    lists together are a rearrangement of what they were, and the number
    of todos is the same. *)
Theorem toggle_conserves_todos (calls : list todosSlice.Call) (p : string) :
  todosSlice.nanoid_collision_free calls →
  let st := todosSlice.run calls todosSlice.initialState in
  let st' := todosSlice.step st (todosSlice.CallToggle p) in
  todosSlice.all_ids st' ≡ₚ todosSlice.all_ids st
  ∧ (length (todosSlice.items st') + length (todosSlice.doneItems st')
     = length (todosSlice.items st) + length (todosSlice.doneItems st))%nat.
Proof.
  intros Hnd st st'.
  assert (Hperm : todosSlice.all_ids st' ≡ₚ todosSlice.all_ids st).
  { apply NoDup_Permutation.
    - assert (Hnd' : todosSlice.nanoid_collision_free
                       (calls ++ [todosSlice.CallToggle p])).
      { unfold todosSlice.nanoid_collision_free.
        rewrite nanoid_results_app. cbn. by rewrite app_nil_r. }
      destruct (reachable_ids_ok _ Hnd') as [H _].
      by rewrite run_snoc in H.
    - by destruct (reachable_ids_ok _ Hnd) as [H _].
    - intros x. apply toggleTodo_same_ids. }
  split; [exact Hperm|].
  apply Permutation_length in Hperm. unfold todosSlice.all_ids, todosSlice.ids in Hperm.
  by rewrite !length_app, !length_fmap in Hperm.
Qed.

Lemma toggle_conserves_todos_witness :
  let calls := [todosSlice.CallAdd "Buy milk" "a" 0;
                todosSlice.CallAdd "Walk" "b" 1;
                todosSlice.CallToggle "a"] in
  todosSlice.nanoid_collision_free calls
  ∧ todosSlice.all_ids
      (todosSlice.step (todosSlice.run calls todosSlice.initialState)
         (todosSlice.CallToggle "b"))
    ≡ₚ todosSlice.all_ids (todosSlice.run calls todosSlice.initialState).
Proof.
  intros calls.
  assert (H : todosSlice.nanoid_collision_free calls).
  { unfold todosSlice.nanoid_collision_free.
    apply (bool_decide_unpack _). vm_compute. reflexivity. }
  split; [exact H|].
  exact (proj1 (toggle_conserves_todos calls "b" H)).
Defined.

(** X16: when the clock readings taken by the adds of a run never go
    back, [items] is ordered newest first in the state the run reaches:
    every todo was created no earlier than the todos after it. *)
Theorem items_newest_first (calls : list todosSlice.Call) :
  StronglySorted Z.le (todosSlice.clock_readings calls) →
  todosSlice.newest_first
    (todosSlice.items (todosSlice.run calls todosSlice.initialState)).
Proof.
  intros Hclock. apply run_newest_first; [apply flags_ok_init| | |done].
  - constructor.
  - by intros t r ?%elem_of_nil.
Qed.

Lemma items_newest_first_witness :
  let calls := [todosSlice.CallAdd "Buy milk" "a" 10;
                todosSlice.CallAdd "Walk" "b" 10;
                todosSlice.CallToggle "a";
                todosSlice.CallAdd "Read" "c" 25] in
  StronglySorted Z.le (todosSlice.clock_readings calls)
  ∧ todosSlice.newest_first
      (todosSlice.items (todosSlice.run calls todosSlice.initialState)).
Proof.
  intros calls.
  assert (H : StronglySorted Z.le (todosSlice.clock_readings calls)).
  { cbn. repeat constructor; lia. }
  split; [exact H|].
  exact (items_newest_first calls H).
Defined.

(** ** TodosCard *)

Example handleAddTodo_trims_example :
  TodosCard.handleAddTodo JsString.trim "a" 7
    {| TodosCard.title := "  Buy milk "; TodosCard.showBanner := false |}
    store.initialState
  = ({| TodosCard.title := EmptyString; TodosCard.showBanner := true |},
     {| store.ui := uiSlice.initialState;
        store.counter := counterSlice.initialState;
        store.todos :=
          {| todosSlice.items := [todosSlice.prepare "Buy milk" "a" 7];
             todosSlice.doneItems := [] |} |}).
Proof. reflexivity. Qed.

Example trim_unicode_space_example :
  JsString.trim "   Buy milk　﻿ " = "Buy milk"
  ∧ JsString.trim "  " = EmptyString
  ∧ JsString.trim "café " = "café".
Proof. repeat split; reflexivity. Qed.

Example handleAddTodo_blank_example :
  let st := ({| TodosCard.title := "   "; TodosCard.showBanner := false |},
             store.initialState) in
  TodosCard.handleAddTodo JsString.trim "a" 7 (fst st) (snd st) = st.
Proof. reflexivity. Qed.

Section TodosCardRuns.
Variable trim : string → string.

Lemma card_run_cons ev events st :
  TodosCard.run trim (ev :: events) st
  = TodosCard.run trim events (TodosCard.handle trim st ev).
Proof. reflexivity. Qed.

Lemma card_run_store events : ∀ local s,
  store.ui (TodosCard.run trim events (local, s)).2 = store.ui s
  ∧ store.counter (TodosCard.run trim events (local, s)).2 = store.counter s
  ∧ store.todos (TodosCard.run trim events (local, s)).2
    = todosSlice.run (TodosCard.calls_of trim (TodosCard.title local) events)
        (store.todos s).
Proof.
  induction events as [|ev rest IH]; intros local s; [done|].
  rewrite card_run_cons.
  destruct ev as [text|n now|i|i| | | ]; cbn [TodosCard.handle TodosCard.calls_of];
    try (unfold TodosCard.handleAddTodo; case_bool_decide);
    match goal with
    | |- context [TodosCard.run trim rest (?l, ?s0)] =>
        destruct (IH l s0) as (Hu & Hc & Ht); rewrite Hu, Hc, Ht
    end;
    split_and!; reflexivity.
Qed.

Lemma calls_of_titles events : ∀ text,
  Forall (λ c, match c with
               | todosSlice.CallAdd ti _ _ => ti ≠ EmptyString ∧ ∃ x, ti = trim x
               | _ => True
               end)
    (TodosCard.calls_of trim text events).
Proof.
  induction events as [|ev rest IH]; intros text; [constructor|].
  destruct ev as [text'|n now|i|i| | | ]; cbn [TodosCard.calls_of];
    try (constructor; [done|]); try apply IH.
  case_bool_decide; [apply IH|]. constructor; [|apply IH]. eauto.
Qed.

End TodosCardRuns.

Section TodoTitles.
Import todosSlice.
Variable P : string → Prop.

Lemma step_titles_ok st c :
  flags_ok st → titles_ok P st →
  match c with CallAdd ti _ _ => P ti | _ => True end →
  titles_ok P (step st c).
Proof.
  intros Hok [Hi Hd] Hc. destruct c as [ti n now|p|p|].
  - split; [|done]. unfold step. cbn. by constructor.
  - destruct (toggle_step_from_flags_ok st p Hok) as [->|(t & Ht & _ & _ & ->)];
      [done|]. split; cbn [items doneItems].
    + by apply Forall_filter_keep.
    + apply Forall_app. split; [done|]. constructor; [|constructor].
      cbn. rewrite Forall_forall in Hi. by apply Hi.
  - split; cbn; by apply Forall_filter_keep.
  - split; constructor.
Qed.

Lemma run_titles_ok calls : ∀ st,
  flags_ok st → titles_ok P st →
  Forall (λ c, match c with CallAdd ti _ _ => P ti | _ => True end) calls →
  titles_ok P (run calls st).
Proof.
  induction calls as [|c calls IH]; intros st Hok Ht Hall; [done|].
  apply Forall_cons in Hall as [Hc Hall]. cbn [run foldl]. apply IH; [|..|done].
  - by apply step_flags_ok.
  - by apply step_titles_ok.
Qed.

End TodoTitles.

(** X17: whatever the user does to the card (typing, submitting,
    pressing Done, Undo, Remove or Clear All, closing the banner), the
    todos of the store are those reached by the calls that the events
    stand for, a submit counting as an add of the trimmed text only when
    that text is not empty; the UI and counter partitions are not
    touched. *)
Theorem card_events_are_todo_calls
    (trim : string → string) (events : list TodosCard.Event)
    (local : TodosCard.Local) (s : store.State) :
  let s' := (TodosCard.run trim events (local, s)).2 in
  store.todos s'
  = todosSlice.run (TodosCard.calls_of trim (TodosCard.title local) events)
      (store.todos s)
  ∧ store.ui s' = store.ui s
  ∧ store.counter s' = store.counter s.
Proof.
  intros s'. destruct (card_run_store trim events local s) as (Hu & Hc & Ht).
  done.
Qed.

(** X18: no todo made through the card has an empty title: in every
    state the card reaches from the initial one, the title of each todo
    of both lists is a non-empty result of [trim]. *)
Theorem card_todos_have_titles
    (trim : string → string) (events : list TodosCard.Event) :
  let s := (TodosCard.run trim events
              (TodosCard.initialLocal, store.initialState)).2 in
  Forall (λ t, todosSlice.title t ≠ EmptyString ∧ ∃ x, todosSlice.title t = trim x)
    (todosSlice.items (store.todos s) ++ todosSlice.doneItems (store.todos s)).
Proof.
  intros s. subst s.
  destruct (card_run_store trim events TodosCard.initialLocal store.initialState)
    as (_ & _ & ->).
  apply Forall_app.
  apply (run_titles_ok (λ ti, ti ≠ EmptyString ∧ ∃ x, ti = trim x)).
  - apply flags_ok_init.
  - split; constructor.
  - apply calls_of_titles.
Qed.

(** X19: submitting twice in a row adds at most one todo: as [trim]
    leaves the empty text empty, a second submit right after a first one
    changes neither the card nor the store. *)
Theorem double_submit_adds_once
    (trim : string → string) (st : TodosCard.Local * store.State)
    (n1 n2 : string) (now1 now2 : Z) :
  trim EmptyString = EmptyString →
  TodosCard.handle trim
    (TodosCard.handle trim st (TodosCard.Submit n1 now1))
    (TodosCard.Submit n2 now2)
  = TodosCard.handle trim st (TodosCard.Submit n1 now1).
Proof.
  intros Htrim. destruct st as [local s].
  assert (Hfirst : TodosCard.handle trim (local, s) (TodosCard.Submit n1 now1)
                   = TodosCard.handleAddTodo trim n1 now1 local s) by reflexivity.
  rewrite Hfirst. unfold TodosCard.handleAddTodo.
  destruct (bool_decide (trim (TodosCard.title local) = EmptyString)) eqn:Hblank;
    cbn [TodosCard.handle]; unfold TodosCard.handleAddTodo; cbn [TodosCard.title].
  - by rewrite Hblank.
  - by rewrite bool_decide_eq_true_2.
Qed.

Lemma double_submit_adds_once_witness :
  let st := ({| TodosCard.title := " Buy milk"; TodosCard.showBanner := false |},
             store.initialState) in
  JsString.trim EmptyString = EmptyString
  ∧ todosSlice.items
      (store.todos
         (TodosCard.handle JsString.trim
            (TodosCard.handle JsString.trim st (TodosCard.Submit "a" 0))
            (TodosCard.Submit "b" 1)).2)
    = [todosSlice.prepare "Buy milk" "a" 0].
Proof.
  intros st.
  assert (H : JsString.trim EmptyString = EmptyString) by reflexivity.
  split; [exact H|].
  rewrite (double_submit_adds_once JsString.trim st "a" "b" 0 1 H).
  reflexivity.
Defined.

(** ** Layout *)

(** X20: the todo lists use two columns only on a window that
    [AppScaffold] lays out as a tablet. *)
Theorem two_columns_only_on_tablet (width : QArith_base.Q) :
  TodosCard.numColumns width = 2%nat → AppScaffold.isTablet width = true.
Proof.
  unfold TodosCard.numColumns, AppScaffold.isTablet.
  destruct (QArith_base.Qle_bool (QArith_base.inject_Z 900) width) eqn:H;
    [|discriminate].
  intros _. apply QArith_base.Qle_bool_iff in H. apply QArith_base.Qle_bool_iff.
  eapply QArith_base.Qle_trans; [|exact H]. by vm_compute.
Qed.

Lemma two_columns_only_on_tablet_witness :
  TodosCard.numColumns (QArith_base.inject_Z 1024) = 2%nat
  ∧ AppScaffold.isTablet (QArith_base.inject_Z 1024) = true.
Proof.
  assert (H : TodosCard.numColumns (QArith_base.inject_Z 1024) = 2%nat)
    by reflexivity.
  split; [exact H|].
  exact (two_columns_only_on_tablet _ H).
Defined.
